(** * Prompt-chain execution and JSON extraction (webstudio AI route)

    A shallow embedding of the route module that drives a chain of
    chat-completion calls ([action], [generate], [getChainForPrompt],
    [getJSONCodeBlock]) together with the properties stated about it.

    Conventions of the embedding.
    - A JavaScript string is a [string]; every [ascii] stands for one UTF-16
      code unit in the range 0..255.
    - A thrown JavaScript error is represented by its [message].
    - Library code that lives outside the module (the JSON parser, the
      markdown parser, the zod schemas, [fetch]) is collected in the class
      [Host]; every theorem holds for every host. *)

From Stdlib Require Import List String Ascii Bool Arith Lia PeanoNat.
From Stdlib Require Import DecimalString.
From Corelib Require PrimFloat.
Import ListNotations.

#[local] Set Warnings "-register-all".

Local Open Scope string_scope.
Local Open Scope list_scope.

Notation "s +++ t" := (String.append s t) (at level 60, right associativity).

(** ** Results of computations that may throw *)

Inductive Result (A : Type) : Type :=
| Return (a : A)
| Throw (message : string).

Arguments Return {A} a.
Arguments Throw {A} message.

Definition isThrow {A} (r : Result A) : bool :=
  match r with Throw _ => true | Return _ => false end.

(** ** The JavaScript string primitives the module calls *)

Module JsString.

Definition LF : string := String (ascii_of_nat 10) EmptyString.

(** White space and line terminators of ECMAScript below U+0100:
    TAB, LF, VT, FF, CR, SPACE and NBSP. *)
Definition isWhiteSpace (c : ascii) : bool :=
  let n := nat_of_ascii c in
  ((9 <=? n)%nat && (n <=? 13)%nat) || (n =? 32)%nat || (n =? 160)%nat.

Fixpoint trimStart (s : string) : string :=
  match s with
  | EmptyString => EmptyString
  | String c s' => if isWhiteSpace c then trimStart s' else s
  end.

Fixpoint trimEnd (s : string) : string :=
  match s with
  | EmptyString => EmptyString
  | String c s' =>
      match trimEnd s' with
      | EmptyString => if isWhiteSpace c then EmptyString else String c EmptyString
      | t => String c t
      end
  end.

(** [String.prototype.trim] *)
Definition trim (s : string) : string := trimEnd (trimStart s).

(** [String.prototype.startsWith] *)
Definition startsWith (s searchString : string) : bool :=
  String.prefix searchString s.

Fixpoint drop (n : nat) (s : string) : string :=
  match n, s with
  | O, _ => s
  | S _, EmptyString => EmptyString
  | S n', String _ s' => drop n' s'
  end.

(** First occurrence of a literal pattern: the text before the match and
    the text after it. *)
Fixpoint search (pat s : string) : option (string * string) :=
  if String.prefix pat s then Some (EmptyString, drop (String.length pat) s)
  else
    match s with
    | EmptyString => None
    | String c s' =>
        match search pat s' with
        | Some (before, after) => Some (String c before, after)
        | None => None
        end
    end.

(** [String.prototype.includes] *)
Fixpoint includes (s searchString : string) : bool :=
  String.prefix searchString s ||
  match s with
  | EmptyString => false
  | String _ s' => includes s' searchString
  end.

(** The abstract operation GetSubstitution of ECMAScript for a pattern
    without capture groups: in the replacement text, [$$] stands for a
    dollar sign, [$&] for the matched text, [$`] for the text before the
    match and [$'] for the text after it; every other character, a
    dollar sign followed by anything else included, stands for itself. *)
Fixpoint getSubstitution (matched before after replacement : string) : string :=
  match replacement with
  | EmptyString => EmptyString
  | String c r =>
      if Ascii.eqb c "$" then
        match r with
        | EmptyString => String c EmptyString
        | String d r' =>
            if Ascii.eqb d "$" then String "$" (getSubstitution matched before after r')
            else if Ascii.eqb d "&" then matched +++ getSubstitution matched before after r'
            else if Ascii.eqb d "`" then before +++ getSubstitution matched before after r'
            else if Ascii.eqb d "'" then after +++ getSubstitution matched before after r'
            else String c (getSubstitution matched before after r)
        end
      else String c (getSubstitution matched before after r)
  end.

(** [s.replace(/pat/, replacement)] for a regular expression that is a
    literal without flags: only the first occurrence is replaced. *)
Definition replace (s pat replacement : string) : string :=
  match search pat s with
  | None => s
  | Some (before, after) =>
      before +++ getSubstitution pat before after replacement +++ after
  end.

(** [Array.prototype.join] on an array of strings *)
Definition join (sep : string) (parts : list string) : string :=
  String.concat sep parts.

(** [String(n)] for a non-negative integer *)
Definition ofNat (n : nat) : string :=
  NilZero.string_of_uint (Nat.to_uint n).

Definition DQ : string := String (ascii_of_nat 34) EmptyString.

(** A line of text written as the pieces between its double quotes. *)
Definition quoted (pieces : list string) : string := String.concat DQ pieces.

(** The elements produced by iterating a string (spread syntax): one
    string per character. *)
Fixpoint chars (s : string) : list string :=
  match s with
  | EmptyString => []
  | String c s' => String c EmptyString :: chars s'
  end.

End JsString.

Import JsString.


(** ** JSON values and markdown trees *)

(** A value produced by [JSON.parse]; [JNull] is JavaScript's [null]. *)
Inductive json : Type :=
| JNull
| JBool (b : bool)
| JNumber (n : PrimFloat.float)
| JString (s : string)
| JArray (items : list json)
| JObject (members : list (string * json)).

Definition Array_isArray (j : json) : bool :=
  match j with JArray _ => true | _ => false end.

(** A [code] node of an mdast tree: [lang] is [null] when the fence carries
    no info string. *)
Record CodeNode : Type := { lang : option string; value : string }.

(** An mdast tree as [visit] sees it: [code] nodes are leaves, every other
    node is looked at only for its children. *)
Inductive mdast : Type :=
| Code (node : CodeNode)
| Parent (children : list mdast).

(** The [code] nodes of a tree in the order [visit] reaches them
    (depth first, parents before children, children left to right). *)
Fixpoint codeNodes (tree : mdast) : list CodeNode :=
  match tree with
  | Code node => [node]
  | Parent children => flat_map codeNodes children
  end.

(** [visit(tree, "code", visitor)] for a visitor that updates an
    accumulator and returns nothing. *)
Definition visit {A : Type} (tree : mdast) (visitor : CodeNode -> A -> A) (acc : A) : A :=
  fold_left (fun acc node => visitor node acc) (codeNodes tree) acc.

(** ** Steps, requests and responses *)

(** [StepSchema = z.enum(["instances", "styles"])] *)
Inductive Step : Type := instances | styles.

Definition Step_toString (step : Step) : string :=
  match step with instances => "instances" | styles => "styles" end.

Definition Steps : Type := list (Step * string).

(** [(ChatCompletionRequestMessage[] | null)[]] as it exists at run time:
    each entry is whatever [JSON.parse] returned, or [null]. *)
Definition Messages : Type := list json.

Definition requestMessage (role content : string) : json :=
  JObject [("role", JString role); ("content", JString content)].

Inductive Model : Type := gpt_3_5_turbo | gpt_4.

Record OpenAIConfig : Type := {
  apiKey : string;
  organization : string;
  model : Model;
  maxTokens : nat
}.

(** The part of [CreateChatCompletionResponse] the module reads. *)
Record ChatCompletionResponseMessage : Type := { content : option string }.
Record Choice : Type := { message : option ChatCompletionResponseMessage }.
Record CreateChatCompletionResponse : Type := { choices : list Choice }.

(** The request handed to [fetch]; the body is kept in structured form. *)
Record FetchRequest : Type := {
  url : string;
  method : string;
  headers : list (string * string);
  body_model : Model;
  body_messages : list json;
  body_temperature : nat;
  body_max_tokens : nat
}.

(** What [fetch] resolves to; [response_json] is the outcome of
    [response.json()]. *)
Record FetchResponse : Type := {
  ok : bool;
  status : nat;
  statusText : string;
  response_json : Result CreateChatCompletionResponse
}.

(** The three repeated fields of the submitted form, in submission order. *)
Record FormEntries : Type := {
  prompt_entries : list string;
  steps_entries : list string;
  messages_entries : list string
}.

(** [z.infer<typeof schema>] *)
Record FormData : Type := {
  prompt : string;
  steps : list Step;
  messages : list (option string)
}.

(** What the route returns to the caller. *)
Inductive ActionResult : Type :=
| ErrorsList (errors : list string)
| ErrorsString (errors : string)
| Generated (result : list (Step * list json)).

(** Run-time faults raised by the engine itself rather than by a [throw]. *)
Inductive Fault : Type :=
| NotIterable       (* spreading a value that is not iterable *)
| NoFirstChoice.    (* reading [.message] of an absent [choices[0]] *)

(** ** The host: library code and ambient state outside the module *)

Class Host : Type := {
  (** [JSON.parse] *)
  JSON_parse : string -> Result json;
  (** [JSON.stringify(value, null, 2)] *)
  JSON_stringify : json -> string;
  (** [fromMarkdown] of mdast-util-from-markdown *)
  parseMarkdown : string -> Result mdast;
  (** [WsEmbedTemplate.parse] and [z.array(EmbedTemplateStyles).parse] *)
  WsEmbedTemplate_parse : json -> Result unit;
  EmbedTemplateStyles_array_parse : json -> Result unit;
  (** the message of the [ZodError] raised for a rejected form *)
  ZodError_message : FormEntries -> string;
  (** the message of an engine [TypeError] *)
  TypeError_message : Fault -> string;
  (** [isFeatureEnabled("ai")] *)
  isFeatureEnabled_ai : bool;
  (** [process.env.NODE_ENV === "production"] *)
  production : bool;
  (** [env.OPENAI_KEY] and [env.OPENAI_ORG] *)
  env_OPENAI_KEY : option string;
  env_OPENAI_ORG : option string;
  (** the network: its state and one request/response exchange *)
  World : Type;
  fetch : World -> FetchRequest -> World * Result FetchResponse
}.

(** ** Computations that exchange messages with the completion service

    The state is the network together with the list of message lists
    handed to the completion client so far, oldest first. *)

Module Chain.

Definition Outbound : Type := list (list json).

Definition M (W A : Type) : Type := W * Outbound -> (W * Outbound) * Result A.

Definition ret {W A} (a : A) : M W A := fun st => (st, Return a).

Definition lift {W A} (r : Result A) : M W A := fun st => (st, r).

Definition bind {W A B} (m : M W A) (k : A -> M W B) : M W B :=
  fun st =>
    match m st with
    | (st', Return a) => k a st'
    | (st', Throw e) => (st', Throw e)
    end.

(** One call of the completion client. *)
Definition call {W A} (complete : W -> list json -> W * Result A)
    (msgs : list json) : M W A :=
  fun st =>
    let (w', r) := complete (fst st) msgs in
    ((w', snd st ++ [msgs]), r).

End Chain.

Notation "x <- m ;; k" := (Chain.bind m (fun x => k))
  (at level 61, m at next level, right associativity).

Definition bindResult {A B} (r : Result A) (k : A -> Result B) : Result B :=
  match r with
  | Return a => k a
  | Throw e => Throw e
  end.

(** [xs.map(f)] for a callback that may throw: the first failure, in
    array order, is the outcome. *)
Fixpoint mapResult {A B} (f : A -> Result B) (xs : list A) : Result (list B) :=
  match xs with
  | [] => Return []
  | x :: xs' =>
      bindResult (f x) (fun y =>
      bindResult (mapResult f xs') (fun ys => Return (y :: ys)))
  end.

(** ** The prompt templates *)

Definition template_instances : string :=
  join LF [
    "";
    "You are WebstudioGPT a no-code tool for designers that generates a JSON representation of UI markup.";
    "";
    "Without using any dependency or external library, generate a JSON object for the following request:";
    "";
    "<!--prompt-content-->";
    "";
    "Respond in valid JSON that strictly follows the TypeScript definitions below:";
    "";
    "```typescript";
    "type EmbedTemplateText = {";
    quoted ["  type: "; "text"; ";"];
    "  value: string;";
    "};";
    "";
    "type EmbedTemplateInstance = {";
    quoted ["  type: "; "instance"; ";"];
    "  /*";
    "    component can be:";
    "    - Box: a container element";
    "    - Heading: typography element used for headings and titles";
    "    - TextBlock: typography element for generic blocks of text (eg. a paragraph)";
    "    - Link: a text link";
    "    - List: a bulleted or numbere list container element";
    "    - List Item: a item in a List component";
    "    - Input: an input field component";
    "    - Label: a label for an Input or TextArea component";
    "    - TextArea: a multi line input field component";
    "    - RadioButton: a radio input component";
    "    - Checkbox: a checkbox field";
    "    - Button: a button component";
    "  */";
    "  component: string;";
    "  children: Array<EmbedTemplateInstance | EmbedTemplateText>;";
    "};";
    "";
    "type JSONResult = Array<EmbedTemplateInstance | EmbedTemplateText>";
    "```";
    "";
    "Below is an example of valid output:";
    "";
    "```json";
    "[";
    quoted ["  { type: "; "text"; ", value: "; "hello"; " },"];
    "  {";
    quoted ["    type: "; "instance"; ","];
    quoted ["    component: "; "Box"; ","];
    "    children: [";
    quoted ["      { type: "; "instance"; ", component: "; "Box"; ", children: [] },"];
    quoted ["      { type: "; "text"; ", value: "; "world"; " },"];
    "    ],";
    "  },";
    "]";
    "```";
    "";
    quoted ["Omit information like "; "props"; " that are not in the TypeScript definitions above."]
  ].

Definition template_styles : string :=
  join LF [
    quoted ["Given the "; "input JSON"; " object representing a UI component structure provided in the previous message, your task is to generate a new JSON object representing **only** the styles for the components in that structure. Ensure that the existing properties such as "; "type"; " or "; "component"; " are not repeated in the output JSON. Don't generate styles for elements with "; "type"; " equal to "; "text"; "."];
    "";
    quoted ["User Request that generated the "; "input JSON"; ": "; "<!--prompt-content-->"; "."];
    "";
    "Respond in valid JSON that strictly follows the TypeScript definitions below:";
    "";
    "```typescript";
    "type JSONResult = EmbedTemplateStyles[];";
    "";
    "type EmbedTemplateStyles = {";
    "  styles: EmbedTemplateStyleDecl[],";
    "  children?: EmbedTemplateStyles[]";
    "};";
    "";
    "type EmbedTemplateStyleDecl = {";
    "  state?: string,";
    "  /*";
    "   property's values are camelCase e.g. flexDirection.";
    "  */";
    "  property: string;";
    "  value:";
    "    | {";
    quoted ["        type: "; "keyword"; ";"];
    "        value: string;";
    "      }";
    "    | {";
    quoted ["        type: "; "fontFamily"; ";"];
    "        value: string[];";
    "      }";
    "    | {";
    quoted ["        type: "; "rgb"; ";"];
    "        r: number;";
    "        g: number;";
    "        b: number;";
    "        alpha: number;";
    "      }";
    "    | {";
    quoted ["        type: "; "invalid"; ";"];
    "        value: string;";
    "      }";
    "    | {";
    quoted ["        type: "; "unset"; ";"];
    quoted ["        value: "; ""; ";"];
    "      }";
    "    | Units;";
    "};";
    "";
    "type Units = {";
    quoted ["  type: "; "unit"; ";"];
    "  value: number;";
    quoted ["  /* unit is a ValidCSSUnit (string) or the string literal "; "number"; " for unitless numbers */"];
    quoted ["  unit: ValidCSSUnit | "; "number"; ";"];
    "};";
    "```";
    "";
    "Comments in the code block provide further context for the immediate key that follows.";
    "";
    "Example result:";
    "";
    "```json";
    quoted ["[{"; "styles"; ":[{"; "property"; ":"; "display"; ","; "value"; ":{"; "type"; ":"; "keyword"; ","; "value"; ":"; "flex"; "}},{"; "property"; ":"; "flexDirection"; ","; "value"; ":{"; "type"; ":"; "keyword"; ","; "value"; ": "; "column"; "}}],"; "children"; ":[{"; "styles"; ":[{"; "property"; ":"; "marginBottom"; ","; "value"; ":{"; "type"; ":"; "unit"; ","; "value"; ": 10,"; "unit"; ":"; "px"; "}}]},{"; "styles"; ":[{"; "property"; ":"; "marginBottom"; ","; "value"; ":{"; "type"; ":"; "unit"; ","; "value"; ": 10,"; "unit"; ":"; "px"; "}}]}]}]"];
    "```"
  ].

Definition templates (step : Step) : string :=
  match step with
  | instances => template_instances
  | styles => template_styles
  end.

Definition promptMarker : string := "<!--prompt-content-->".

(** ** The form schema

    The combinators of zod and zod-form-data that [schema] is built from.
    A field schema reads the value [zfd.formData] hands it and yields the
    parsed value, or [None] when it raises an issue. *)

Module Zod.

(** The value of one form key: absent, a single entry, or several. *)
Inductive FormValue : Type :=
| FUndefined
| FString (s : string)
| FArray (entries : list string).

Definition Schema (A : Type) : Type := FormValue -> option A.

Definition fieldValue (entries : list string) : FormValue :=
  match entries with
  | [] => FUndefined
  | [s] => FString s
  | _ => FArray entries
  end.

(** [z.string()] and [z.string().max(n)] *)
Definition z_string : Schema string :=
  fun v => match v with FString s => Some s | _ => None end.

Definition z_string_max (n : nat) : Schema string :=
  fun v =>
    match v with
    | FString s => if (String.length s <=? n)%nat then Some s else None
    | _ => None
    end.

(** [StepSchema] *)
Definition StepSchema : Schema Step :=
  fun v =>
    match v with
    | FString s =>
        if String.eqb s "instances" then Some instances
        else if String.eqb s "styles" then Some styles
        else None
    | _ => None
    end.

(** [zfd.text(schema)]: an empty string is turned into [undefined]
    before [schema] sees it. *)
Definition text {A} (schema : Schema A) : Schema A :=
  fun v =>
    match v with
    | FString EmptyString => schema FUndefined
    | _ => schema v
    end.

(** [schema.optional()]: [undefined] is accepted as it is, anything else
    goes to [schema]. *)
Definition optional {A} (schema : Schema A) : Schema (option A) :=
  fun v =>
    match v with
    | FUndefined => Some None
    | _ => option_map Some (schema v)
    end.

Fixpoint z_array {A} (schema : Schema A) (entries : list string) : option (list A) :=
  match entries with
  | [] => Some []
  | e :: entries' =>
      match schema (FString e), z_array schema entries' with
      | Some a, Some l => Some (a :: l)
      | _, _ => None
      end
  end.

(** [zfd.repeatableOfType(schema)]: an absent key is the empty array, a
    single entry is an array of one. *)
Definition repeatableOfType {A} (schema : Schema A) : Schema (list A) :=
  fun v =>
    match v with
    | FArray entries => z_array schema entries
    | FUndefined => z_array schema []
    | FString s => z_array schema [s]
    end.

End Zod.

Section Engine.

Context {host : Host}.

(** *** [schema] *)

Definition schema_parse (form : FormEntries) : Result FormData :=
  match Zod.text (Zod.z_string_max 280) (Zod.fieldValue (prompt_entries form)),
        Zod.repeatableOfType (Zod.text Zod.StepSchema)
          (Zod.fieldValue (steps_entries form)),
        Zod.repeatableOfType (Zod.optional (Zod.text Zod.z_string))
          (Zod.fieldValue (messages_entries form))
  with
  | Some p, Some s, Some m => Return {| prompt := p; steps := s; messages := m |}
  | _, _, _ => Throw (ZodError_message form)
  end.

(** *** [validators] *)

Definition validators (step : Step) (value : json) : Result unit :=
  match step with
  | instances => WsEmbedTemplate_parse value
  | styles => EmbedTemplateStyles_array_parse value
  end.

(** *** [getJSONCodeBlock] *)

Definition lang_is (node : CodeNode) (tag : string) : bool :=
  match lang node with
  | Some l => String.eqb l tag
  | None => false
  end.

(** [!node.lang] *)
Definition lang_absent (node : CodeNode) : bool :=
  match lang node with
  | Some l => String.eqb l EmptyString
  | None => true
  end.

(** [node.lang === "json"] and [node.value.trim()] *)
Definition isJsonBlock (node : CodeNode) : bool := lang_is node "json".

Definition trimmedValue (node : CodeNode) : string := trim (value node).

(** The callback given to [visit]; [codeBlocks] is the array it updates. *)
Definition collectCodeBlock (node : CodeNode) (codeBlocks : list string) : list string :=
  if isJsonBlock node then trimmedValue node :: codeBlocks
  else if lang_absent node then codeBlocks ++ [trimmedValue node]
  else codeBlocks.

(** The second [try] block: [inl] is a value it returns from the
    function, [inr] the [errorMsg] array it leaves behind. *)
Definition scanCodeBlocks (text : string) (errorMsg : list string)
  : json + list string :=
  match parseMarkdown text with
  | Throw _ => inr errorMsg
  | Return tree =>
      let codeBlocks := visit tree collectCodeBlock [] in
      match codeBlocks with
      | first :: _ =>
          match JSON_parse first with
          | Return v => inl v
          | Throw _ => inr errorMsg
          end
      | [] => inr (errorMsg ++ ["No code blocks found"])
      end
  end.

Definition getJSONCodeBlock (text : string) : Result json :=
  let errorMsg := ["Parsing failed"] in
  match JSON_parse (trim text) with
  | Return v => Return v
  | Throw _ =>
      match scanCodeBlocks text errorMsg with
      | inl v => Return v
      | inr errorMsg =>
          let errorMsg := if production then errorMsg else errorMsg ++ [text] in
          Throw (join (LF +++ LF) errorMsg)
      end
  end.

(** *** [getChainForPrompt] *)

(** [...messagesForStep] *)
Definition spread (messagesForStep : json) : Result (list json) :=
  match messagesForStep with
  | JArray items => Return items
  | JString s => Return (map JString (chars s))
  | _ => Throw (TypeError_message NotIterable)
  end.

(** The messages put in front of the user message of step [i];
    [nth_error messages i = None] is an [undefined] entry. *)
Definition historyFor (messages : Messages) (i : nat)
    (responses : list (Step * string)) : Result (list json) :=
  match nth_error messages i with
  | Some JNull =>
      if (0 <? i)%nat then
        match nth_error responses (i - 1) with
        | Some previous => Return [requestMessage "assistant" (snd previous)]
        | None => Return []
        end
      else Return []
  | Some messagesForStep => spread messagesForStep
  | None => Throw (TypeError_message NotIterable)
  end.

(** [completion.choices[0].message?.content || ""] *)
Definition firstChoiceContent (completion : CreateChatCompletionResponse)
  : Result string :=
  match choices completion with
  | [] => Throw (TypeError_message NoFirstChoice)
  | choice :: _ =>
      Return
        match message choice with
        | Some m => match content m with Some c => c | None => EmptyString end
        | None => EmptyString
        end
  end.

Definition userMessage (template prompt : string) : json :=
  requestMessage "user" (trim (replace template promptMarker prompt)).

(** The [for] loop of [chain]: [rest] holds [steps[i]], [steps[i+1]], ...
    and [responses] the [i] results recorded so far, so that the
    assignment [responses[i] = ...] extends it by one element. *)
Fixpoint chainLoop {W : Type}
    (complete : W -> list json -> W * Result CreateChatCompletionResponse)
    (prompt : string) (messages : Messages)
    (rest : Steps) (i : nat) (responses : list (Step * string))
  : Chain.M W (list (Step * string)) :=
  match rest with
  | [] => Chain.ret responses
  | (step, template) :: rest' =>
      history <- Chain.lift (historyFor messages i responses) ;;
      completion <- Chain.call complete (history ++ [userMessage template prompt]) ;;
      response <- Chain.lift (firstChoiceContent completion) ;;
      chainLoop complete prompt messages rest' (S i) (responses ++ [(step, response)])
  end.

Definition getChainForPrompt {W : Type} (prompt : string) (steps : Steps)
    (messages : Messages)
    (complete : W -> list json -> W * Result CreateChatCompletionResponse)
  : Chain.M W (list (Step * string)) :=
  chainLoop complete prompt messages steps 0 [].

(** *** [generate]

    The [console.error] call of the [catch] clause writes to the console
    and is left out. *)

Definition completionRequest (config : OpenAIConfig) (messages : list json)
  : FetchRequest :=
  {| url := "https://api.openai.com/v1/chat/completions";
     method := "POST";
     headers :=
       [("Content-Type", "application/json");
        ("Accept", "application/json");
        ("Authorization", "Bearer " +++ apiKey config);
        ("OpenAI-Organization", organization config)];
     body_model := model config;
     body_messages := messages;
     body_temperature := 0;
     body_max_tokens := maxTokens config |}.

(** The [complete] callback that [generate] passes to the chain. *)
Definition complete (config : OpenAIConfig) (w : World) (messages : list json)
  : World * Result CreateChatCompletionResponse :=
  let (w', outcome) := fetch w (completionRequest config messages) in
  (w',
   bindResult outcome (fun response =>
     if ok response then response_json response
     else Throw (ofNat (status response) +++ ": " +++ statusText response))).

(** [Array.isArray(json) ? json : [json]] *)
Definition arrayOf (value : json) : list json :=
  match value with
  | JArray items => items
  | _ => [value]
  end.

(** The callback of [responses.map] *)
Definition shapeResponse (entry : Step * string) : Result (Step * list json) :=
  let (step, response) := entry in
  bindResult (getJSONCodeBlock response) (fun value =>
    match validators step value with
    | Throw message =>
        Throw ("Invalid " +++ Step_toString step +++ " generation. " +++
               (if production then EmptyString
                else JSON_stringify value +++ LF +++ LF +++ message))
    | Return _ => Return (step, arrayOf value)
    end).

(** The body of the [try] block *)
Definition generateBody (userPrompt : string) (steps : Steps) (messages : Messages)
    (config : OpenAIConfig) : Chain.M World (list (Step * list json)) :=
  responses <- getChainForPrompt userPrompt steps messages (complete config) ;;
  Chain.lift (mapResult shapeResponse responses).

Definition generate (userPrompt : string) (steps : Steps) (messages : Messages)
    (config : OpenAIConfig) : Chain.M World (list (Step * list json)) :=
  fun st =>
    if (String.length (trim (apiKey config)) =? 0)%nat then
      (st, Throw "OpenAI API missing")
    else if negb (startsWith (organization config) "org-") then
      (st, Throw "OpenAI org missing or invalid")
    else
      match generateBody userPrompt steps messages config st with
      | (st', Return result) => (st', Return result)
      | (st', Throw message) =>
          (st', Throw ("Something went wrong. " +++
                       (if production then EmptyString else message)))
      end.

(** *** [action]

    The statement after the [try] statement cannot be reached and is left
    out. *)

(** [a || ""] for an optional string *)
Definition orEmpty (a : option string) : string :=
  match a with Some s => s | None => EmptyString end.

(** The callback of [steps.map((_, index) => ...)]: the entry of
    [formData.messages] at [index] is decoded when it is a string;
    [undefined], in or out of range, gives [null]. *)
Definition entryAt (entries : list (option string)) (index : nat) : Result json :=
  match nth_error entries index with
  | Some (Some m) => JSON_parse m
  | _ => Return JNull
  end.

(** One history per step, read at the step's index. *)
Definition stepMessages (formData : FormData) (steps : Steps) : Result Messages :=
  mapResult (entryAt (messages formData)) (seq 0 (List.length steps)).

Definition action (request : FormEntries)
  : World * Chain.Outbound -> (World * Chain.Outbound) * ActionResult :=
  fun st =>
    if negb isFeatureEnabled_ai then (st, ErrorsList ["Feature not available"])
    else
      match schema_parse request with
      | Throw message => (st, ErrorsString message)
      | Return formData =>
          let userPrompt := trim (prompt formData) in
          let steps := map (fun step => (step, templates step)) (steps formData) in
          match stepMessages formData steps with
          | Throw message => (st, ErrorsString message)
          | Return messages =>
              match
                generate userPrompt steps messages
                  {| apiKey := orEmpty env_OPENAI_KEY;
                     organization := orEmpty env_OPENAI_ORG;
                     model := gpt_3_5_turbo;
                     maxTokens := 3000 |} st
              with
              | (st', Return result) => (st', Generated result)
              | (st', Throw message) => (st', ErrorsString message)
              end
          end
      end.

(** *** Per-step histories, as a padded and cut list

    [alignedEntries] is [formData.messages] cut or padded with absent
    entries to the number of steps; [decodeEntry] decodes one entry.
    They are not part of the module: [stepMessages] is compared with
    them below. *)

Definition alignedEntries (formData : FormData) : list (option string) :=
  let n := List.length (steps formData) in
  firstn n (messages formData
            ++ repeat None (n - List.length (messages formData))).

Definition decodeEntry (entry : option string) : Result json :=
  match entry with
  | Some m => JSON_parse m
  | None => Return JNull
  end.

End Engine.

(** ** A small host for running the engine

    A scripted completion service, a parser for a handful of JSON texts
    and a reader of fenced blocks for simple documents.  They are used to
    evaluate the engine on concrete inputs; no theorem about the engine
    depends on them. *)

Module Stub.

(** [JSON.parse] on the texts used below. *)
Definition parse (s : string) : Result json :=
  if String.eqb s "[]" then Return (JArray [])
  else if String.eqb s "{}" then Return (JObject [])
  else if String.eqb s "null" then Return JNull
  else if String.eqb s "true" then Return (JBool true)
  else if String.eqb s "[{}]" then Return (JArray [JObject []])
  else Throw "Unexpected token".

Definition stringify (value : json) : string :=
  match value with
  | JNull => "null"
  | JBool true => "true"
  | JBool false => "false"
  | JArray [] => "[]"
  | JObject [] => "{}"
  | _ => "..."
  end.

Fixpoint lines (s : string) : list string :=
  match s with
  | EmptyString => [EmptyString]
  | String c s' =>
      if Ascii.eqb c (ascii_of_nat 10) then EmptyString :: lines s'
      else
        match lines s' with
        | l :: ls => String c l :: ls
        | [] => [String c EmptyString]
        end
  end.

Definition isFence (line : string) : bool := String.prefix "```" line.

Definition fenceLang (line : string) : option string :=
  match trim (drop 3 line) with
  | EmptyString => None
  | info => Some info
  end.

(** [fence] is the language and the body lines, newest first, of the
    fenced block being read, if any. *)
Fixpoint blocks (ls : list string) (fence : option (option string * list string))
  : list mdast :=
  match ls, fence with
  | [], None => []
  | [], Some (l, body) =>
      [Code {| lang := l; value := join LF (rev body) |}]
  | line :: ls', None =>
      if isFence line then blocks ls' (Some (fenceLang line, []))
      else blocks ls' None
  | line :: ls', Some (l, body) =>
      if isFence line
      then Code {| lang := l; value := join LF (rev body) |} :: blocks ls' None
      else blocks ls' (Some (l, line :: body))
  end.

Definition markdown (text : string) : Result mdast :=
  Return (Parent (blocks (lines text) None)).

Definition expectArray (value : json) : Result unit :=
  if Array_isArray value then Return tt else Throw "Expected array".

Definition reply (text : string) : FetchResponse :=
  {| ok := true; status := 200; statusText := "OK";
     response_json :=
       Return {| choices := [ {| message := Some {| content := Some text |} |} ] |} |}.

Definition unavailable : FetchResponse :=
  {| ok := false; status := 503; statusText := "Service Unavailable";
     response_json := Throw "Unexpected end of JSON input" |}.

(** The network is the list of reply texts the service will give, in
    order; once they are used up the service answers 503. *)
Definition scripted (w : list string) (request : FetchRequest)
  : list string * Result FetchResponse :=
  match w with
  | text :: w' => (w', Return (reply text))
  | [] => ([], Return unavailable)
  end.

Definition host (feature prod : bool) : Host :=
  {| JSON_parse := parse;
     JSON_stringify := stringify;
     parseMarkdown := markdown;
     WsEmbedTemplate_parse := expectArray;
     EmbedTemplateStyles_array_parse := expectArray;
     ZodError_message := fun _ => "Invalid form data";
     TypeError_message := fun fault =>
       match fault with
       | NotIterable => "messagesForStep is not iterable"
       | NoFirstChoice => "Cannot read properties of undefined"
       end;
     isFeatureEnabled_ai := feature;
     production := prod;
     env_OPENAI_KEY := Some "sk-test";
     env_OPENAI_ORG := Some "org-test";
     World := list string;
     fetch := scripted |}.

(** The same host with validators that accept every value. *)
Definition lenient : Host :=
  {| JSON_parse := parse;
     JSON_stringify := stringify;
     parseMarkdown := markdown;
     WsEmbedTemplate_parse := fun _ => Return tt;
     EmbedTemplateStyles_array_parse := fun _ => Return tt;
     ZodError_message := fun _ => "Invalid form data";
     TypeError_message := TypeError_message (Host := host true false);
     isFeatureEnabled_ai := true;
     production := false;
     env_OPENAI_KEY := Some "sk-test";
     env_OPENAI_ORG := Some "org-test";
     World := list string;
     fetch := scripted |}.

Definition fence (tag body : string) : string :=
  "```" +++ tag +++ LF +++ body +++ LF +++ "```".

(** A JSON-tagged block before an untagged one, and the reverse. *)
Definition jsonThenPlain : string :=
  "Here you go:" +++ LF +++ fence "json" "[{}]" +++ LF +++ fence EmptyString "{}".

Definition plainThenJson : string :=
  "Here you go:" +++ LF +++ fence EmptyString "{}" +++ LF +++ fence "json" "[{}]".

(** Two JSON-tagged blocks. *)
Definition twoJson : string :=
  fence "json" "[]" +++ LF +++ "or" +++ LF +++ fence "json" "[{}]".

(** A block that is a candidate but is not JSON. *)
Definition brokenBlock : string :=
  "Sorry." +++ LF +++ fence "json" "[oops".

Definition config : OpenAIConfig :=
  {| apiKey := "sk-test"; organization := "org-test";
     model := gpt_3_5_turbo; maxTokens := 3000 |}.

Definition oneStep : Steps := [(instances, "Build this: <!--prompt-content-->")].

Definition twoSteps : Steps :=
  [(instances, templates instances); (styles, templates styles)].

Definition form (messages : list string) : FormEntries :=
  {| prompt_entries := ["make a button"];
     steps_entries := ["instances"];
     messages_entries := messages |}.

(** A form whose prompt is a replacement pattern. *)
Definition dollarForm : FormEntries :=
  {| prompt_entries := ["$&"];
     steps_entries := ["instances"];
     messages_entries := [] |}.

(** Two and three steps with short templates. *)
Definition buildTemplate : string := "Build this: <!--prompt-content-->".
Definition styleTemplate : string := "Style this: <!--prompt-content-->".

Definition shortSteps : Steps :=
  [(instances, buildTemplate); (styles, styleTemplate)].

Definition threeSteps : Steps :=
  [(instances, buildTemplate); (styles, styleTemplate); (styles, styleTemplate)].

(** The host without credentials in its environment. *)
Definition keyless : Host :=
  {| JSON_parse := parse;
     JSON_stringify := stringify;
     parseMarkdown := markdown;
     WsEmbedTemplate_parse := expectArray;
     EmbedTemplateStyles_array_parse := expectArray;
     ZodError_message := fun _ => "Invalid form data";
     TypeError_message := TypeError_message (Host := host true true);
     isFeatureEnabled_ai := true;
     production := true;
     env_OPENAI_KEY := None;
     env_OPENAI_ORG := Some "org-test";
     World := list string;
     fetch := scripted |}.

(** A client that answers with one choice holding no message. *)
Definition silent (w : unit) (request : list json)
  : unit * Result CreateChatCompletionResponse :=
  (w, Return {| choices := [ {| message := None |} ] |}).

(** A text that holds the words of the marker, with a block that is a
    candidate but is not JSON. *)
Definition markerWords : string :=
  "No code blocks found" +++ LF +++ fence "json" "[oops".

(** A block in another language before a block without a tag. *)
Definition otherThenPlain : string :=
  fence "typescript" "type A = 1" +++ LF +++ fence EmptyString "[{}]".

Definition noSteps : FormEntries :=
  {| prompt_entries := ["make a button"];
     steps_entries := [];
     messages_entries := [] |}.

End Stub.

(** * Properties *)

(** ** String primitives *)

Section StringFacts.

Lemma append_empty_r (s : string) : s +++ EmptyString = s.
Proof. induction s as [|c s IH]; simpl; [reflexivity | now rewrite IH]. Qed.

Lemma append_assoc (a b c : string) : (a +++ b) +++ c = a +++ b +++ c.
Proof. induction a as [|x a IH]; simpl; [reflexivity | now rewrite IH]. Qed.

Lemma prefix_split (pat s : string) :
  String.prefix pat s = true -> s = pat +++ drop (String.length pat) s.
Proof.
  revert s; induction pat as [|c pat IH]; intros s Hp; simpl.
  - reflexivity.
  - destruct s as [|d s]; simpl in Hp; [discriminate|].
    destruct (ascii_dec c d) as [->|]; [|discriminate].
    simpl. now rewrite <- IH.
Qed.

Lemma prefix_append (pat rest : string) : String.prefix pat (pat +++ rest) = true.
Proof.
  induction pat as [|c pat IH]; simpl.
  - now destruct rest.
  - destruct (ascii_dec c c); [assumption | congruence].
Qed.

Lemma search_unfold (pat s : string) :
  search pat s =
  if String.prefix pat s then Some (EmptyString, drop (String.length pat) s)
  else
    match s with
    | EmptyString => None
    | String c s' =>
        match search pat s' with
        | Some (before, after) => Some (String c before, after)
        | None => None
        end
    end.
Proof. destruct s; reflexivity. Qed.

(** [search] returns a genuine decomposition of the text. *)
Lemma search_sound (pat s before after : string) :
  search pat s = Some (before, after) -> s = before +++ pat +++ after.
Proof.
  revert before after; induction s as [|c s IH]; intros before after Hs;
    rewrite search_unfold in Hs;
    destruct (String.prefix pat _) eqn:Hp.
  - injection Hs as <- <-. now apply prefix_split.
  - discriminate.
  - injection Hs as <- <-. now apply prefix_split.
  - destruct (search pat s) as [[b a]|] eqn:Hrec; [|discriminate].
    injection Hs as <- <-. simpl. f_equal. now apply IH.
Qed.

Lemma includes_unfold (s m : string) :
  includes s m =
  String.prefix m s ||
  match s with
  | EmptyString => false
  | String _ s' => includes s' m
  end.
Proof. destruct s; reflexivity. Qed.

Lemma includes_prefix (s m : string) :
  String.prefix m s = true -> includes s m = true.
Proof. intros Hp. rewrite includes_unfold, Hp. reflexivity. Qed.

Lemma includes_append_l (a s m : string) :
  includes s m = true -> includes (a +++ s) m = true.
Proof.
  intros Hs. induction a as [|c a IH]; [assumption|].
  change (String c a +++ s) with (String c (a +++ s)).
  rewrite includes_unfold, IH. apply orb_true_r.
Qed.

Lemma includes_middle (a m r : string) : includes (a +++ m +++ r) m = true.
Proof. apply includes_append_l, includes_prefix, prefix_append. Qed.

Lemma includes_dollar_cons (c : ascii) (r : string) :
  includes (String c r) "$" = false ->
  Ascii.eqb c "$" = false /\ includes r "$" = false.
Proof.
  rewrite includes_unfold. intros Hi.
  apply orb_false_iff in Hi as [Hc Hr]. split; [|assumption].
  simpl in Hc. destruct (ascii_dec "$" c) as [<-|Hne].
  - destruct r; discriminate.
  - apply Ascii.eqb_neq. congruence.
Qed.

(** A replacement text without a dollar sign is inserted as it is. *)
Lemma getSubstitution_literal (matched before after r : string) :
  includes r "$" = false -> getSubstitution matched before after r = r.
Proof.
  induction r as [|c r IH]; intros Hi; [reflexivity|].
  apply includes_dollar_cons in Hi as [Hc Hr].
  simpl. rewrite Hc. now rewrite IH.
Qed.

Lemma replace_literal (before after pat replacement : string) :
  search pat (before +++ pat +++ after) = Some (before, after) ->
  includes replacement "$" = false ->
  replace (before +++ pat +++ after) pat replacement
  = before +++ replacement +++ after.
Proof.
  intros Hs Hi. unfold replace. rewrite Hs.
  now rewrite getSubstitution_literal.
Qed.

(** The replacement text [$&] puts the matched text back. *)
Lemma replace_matched (s pat : string) : replace s pat "$&" = s.
Proof.
  unfold replace. destruct (search pat s) as [[before after]|] eqn:Hs; [|reflexivity].
  apply search_sound in Hs. simpl. now rewrite append_empty_r.
Qed.

End StringFacts.

Example trim_example :
  trim (" " +++ LF +++ "[1] " +++ LF) = "[1]".
Proof. reflexivity. Qed.

Example replace_example :
  replace "a <!--prompt-content--> b" promptMarker "make a button"
  = "a make a button b".
Proof. reflexivity. Qed.

Example replace_dollar_example :
  replace "a <!--prompt-content--> b" promptMarker "under $$5"
  = "a under $5 b".
Proof. reflexivity. Qed.

(** Both templates of the module hold the marker; only its first
    occurrence is looked for. *)
Example templates_hold_marker :
  includes (templates instances) promptMarker = true /\
  includes (templates styles) promptMarker = true.
Proof. split; vm_compute; reflexivity. Qed.

(** ** Extraction *)

Section ExtractionFacts.

Context {host : Host}.

Lemma json_block_has_lang (node : CodeNode) :
  isJsonBlock node = true -> lang_absent node = false.
Proof.
  unfold isJsonBlock, lang_is, lang_absent.
  destruct (lang node) as [l|]; [|discriminate].
  intros Hl. apply String.eqb_eq in Hl. now subst l.
Qed.

(** What the visitor has built once it has seen [nodes]: the JSON-tagged
    blocks in reverse order of encounter, then what was there before,
    then the blocks without a tag in order of encounter. *)
Lemma collect_fold (nodes : list CodeNode) (acc : list string) :
  fold_left (fun acc node => collectCodeBlock node acc) nodes acc
  = rev (map trimmedValue (filter isJsonBlock nodes))
    ++ acc
    ++ map trimmedValue (filter lang_absent nodes).
Proof.
  revert acc; induction nodes as [|node nodes IH]; intros acc; simpl.
  - now rewrite app_nil_r.
  - rewrite IH. unfold collectCodeBlock.
    destruct (isJsonBlock node) eqn:Hj.
    + rewrite (json_block_has_lang node Hj). simpl.
      now rewrite <- app_assoc.
    + destruct (lang_absent node); simpl; [|reflexivity].
      now rewrite <- !app_assoc.
Qed.

Lemma codeBlocks_spec (tree : mdast) :
  visit tree collectCodeBlock []
  = rev (map trimmedValue (filter isJsonBlock (codeNodes tree)))
    ++ map trimmedValue (filter lang_absent (codeNodes tree)).
Proof. unfold visit. now rewrite collect_fold. Qed.

(** With a JSON-tagged block in the document, the first candidate is the
    one met last. *)
Lemma codeBlocks_last_json (tree : mdast) (earlier : list CodeNode) (b : CodeNode) :
  filter isJsonBlock (codeNodes tree) = earlier ++ [b] ->
  visit tree collectCodeBlock []
  = trimmedValue b
    :: rev (map trimmedValue earlier)
    ++ map trimmedValue (filter lang_absent (codeNodes tree)).
Proof.
  intros Hf. rewrite codeBlocks_spec, Hf, map_app, rev_app_distr. reflexivity.
Qed.

Lemma filter_none {A : Type} (f : A -> bool) (l : list A) :
  (forall x, In x l -> f x = false) -> filter f l = [].
Proof.
  induction l as [|x l IH]; intros Hf; [reflexivity|].
  simpl. rewrite (Hf x (or_introl eq_refl)). apply IH.
  intros y Hin. apply Hf. now right.
Qed.

Lemma filter_has_last {A : Type} (f : A -> bool) (l : list A) (x : A) :
  In x l -> f x = true -> exists earlier last, filter f l = earlier ++ [last].
Proof.
  intros Hin Hx.
  destruct (exists_last (l := filter f l)) as [earlier [last Hl]].
  - intros Hnil. assert (Hf : In x (filter f l)) by now apply filter_In.
    rewrite Hnil in Hf. exact Hf.
  - now exists earlier, last.
Qed.

Lemma codeBlocks_none (tree : mdast) :
  (forall node, In node (codeNodes tree) ->
     isJsonBlock node = false /\ lang_absent node = false) ->
  visit tree collectCodeBlock [] = [].
Proof.
  intros Hnone. rewrite codeBlocks_spec.
  rewrite !filter_none; [reflexivity | |]; intros node Hin; now apply Hnone.
Qed.

(** The outcome of [getJSONCodeBlock] once the direct parse has failed
    and the document has a first candidate. *)
Lemma getJSONCodeBlock_candidate (text : string) (tree : mdast)
    (first : string) (others : list string) :
  isThrow (JSON_parse (trim text)) = true ->
  parseMarkdown text = Return tree ->
  visit tree collectCodeBlock [] = first :: others ->
  getJSONCodeBlock text =
  match JSON_parse first with
  | Return v => Return v
  | Throw _ =>
      Throw (join (LF +++ LF)
               (["Parsing failed"] ++ if production then [] else [text]))
  end.
Proof.
  intros Hdirect Htree Hblocks. unfold getJSONCodeBlock, scanCodeBlocks.
  destruct (JSON_parse (trim text)); [discriminate|].
  rewrite Htree, Hblocks.
  destruct (JSON_parse first); [reflexivity|].
  destruct production; reflexivity.
Qed.

Lemma getJSONCodeBlock_no_candidate (text : string) (tree : mdast) :
  isThrow (JSON_parse (trim text)) = true ->
  parseMarkdown text = Return tree ->
  visit tree collectCodeBlock [] = [] ->
  getJSONCodeBlock text =
  Throw (join (LF +++ LF)
           (["Parsing failed"; "No code blocks found"]
            ++ if production then [] else [text])).
Proof.
  intros Hdirect Htree Hblocks. unfold getJSONCodeBlock, scanCodeBlocks.
  destruct (JSON_parse (trim text)); [discriminate|].
  rewrite Htree, Hblocks.
  destruct production; reflexivity.
Qed.

(** A text that parses directly is returned without looking for blocks. *)
Lemma getJSONCodeBlock_direct (text : string) (v : json) :
  JSON_parse (trim text) = Return v -> getJSONCodeBlock text = Return v.
Proof. intros Hp. unfold getJSONCodeBlock. now rewrite Hp. Qed.

End ExtractionFacts.

(** C2. When the text does not parse directly and its document holds a
    block tagged [json] together with a block without a tag, extraction is
    decided by a tagged block alone, wherever the blocks stand: it returns
    what the last tagged block (the only one, when there is one) parses to,
    and fails when that block does not parse. *)
Theorem extraction_prefers_json_block {host : Host}
    (text : string) (tree : mdast) (block plain : CodeNode) :
  isThrow (JSON_parse (trim text)) = true ->
  parseMarkdown text = Return tree ->
  In block (codeNodes tree) ->
  isJsonBlock block = true ->
  In plain (codeNodes tree) ->
  lang_absent plain = true ->
  exists earlier tagged,
    filter isJsonBlock (codeNodes tree) = earlier ++ [tagged]
    /\
    getJSONCodeBlock text =
    match JSON_parse (trim (value tagged)) with
    | Return v => Return v
    | Throw _ =>
        Throw (join (LF +++ LF)
                 (["Parsing failed"] ++ if production then [] else [text]))
    end.
Proof.
  intros Hdirect Htree Hin Hjson _ _.
  destruct (filter_has_last isJsonBlock (codeNodes tree) block Hin Hjson)
    as [earlier [tagged Htagged]].
  exists earlier, tagged. split; [exact Htagged|].
  apply (getJSONCodeBlock_candidate text tree (trimmedValue tagged)
           (rev (map trimmedValue earlier)
            ++ map trimmedValue (filter lang_absent (codeNodes tree))));
    try assumption.
  now apply codeBlocks_last_json.
Qed.

(** C10. With two or more blocks tagged [json] the candidates start with
    the tagged blocks in reverse order of encounter, so the block that
    extraction tries to parse is the tagged block that comes last in the
    document. *)
Theorem extraction_tries_last_json_block {host : Host}
    (text : string) (tree : mdast) (earlier : list CodeNode) (last : CodeNode) :
  isThrow (JSON_parse (trim text)) = true ->
  parseMarkdown text = Return tree ->
  filter isJsonBlock (codeNodes tree) = earlier ++ [last] ->
  (1 <= List.length earlier)%nat ->
  visit tree collectCodeBlock []
  = trim (value last)
    :: rev (map trimmedValue earlier)
    ++ map trimmedValue (filter lang_absent (codeNodes tree))
  /\
  getJSONCodeBlock text =
  match JSON_parse (trim (value last)) with
  | Return v => Return v
  | Throw _ =>
      Throw (join (LF +++ LF)
               (["Parsing failed"] ++ if production then [] else [text]))
  end.
Proof.
  intros Hdirect Htree Hjson _.
  pose proof (codeBlocks_last_json tree earlier last Hjson) as Hblocks.
  split; [exact Hblocks|].
  now apply (getJSONCodeBlock_candidate text tree _ _ Hdirect Htree Hblocks).
Qed.

(** C8 as amended.  When the text does not parse directly, extraction fails
    in both of these cases.  If no block of the document can serve as a
    candidate, the message is [Parsing failed], then [No code blocks found],
    then (outside production) the text, so it includes the marker.  If there
    is a first candidate and it does not parse, the message is
    [Parsing failed], then (outside production) the text: no marker is
    added, so the message includes the marker exactly when production mode
    does not hold and the echoed text itself includes it. *)
Theorem extraction_failure_marker {host : Host}
    (text : string) (tree : mdast) :
  isThrow (JSON_parse (trim text)) = true ->
  parseMarkdown text = Return tree ->
  ((forall node, In node (codeNodes tree) ->
      isJsonBlock node = false /\ lang_absent node = false) ->
   getJSONCodeBlock text =
   Throw (join (LF +++ LF)
            (["Parsing failed"; "No code blocks found"]
             ++ if production then [] else [text]))
   /\
   includes
     (join (LF +++ LF)
        (["Parsing failed"; "No code blocks found"]
         ++ if production then [] else [text]))
     "No code blocks found" = true)
  /\
  (forall first others,
     visit tree collectCodeBlock [] = first :: others ->
     isThrow (JSON_parse first) = true ->
     getJSONCodeBlock text =
     Throw (join (LF +++ LF)
              (["Parsing failed"] ++ if production then [] else [text]))
     /\
     includes
       (join (LF +++ LF)
          (["Parsing failed"] ++ if production then [] else [text]))
       "No code blocks found"
     = negb production && includes text "No code blocks found").
Proof.
  intros Hdirect Htree. split.
  - intros Hnone. split.
    + apply (getJSONCodeBlock_no_candidate text tree Hdirect Htree).
      now apply codeBlocks_none.
    + destruct production.
      * reflexivity.
      * apply (includes_middle ("Parsing failed" +++ LF +++ LF)
                 "No code blocks found" (LF +++ LF +++ text)).
  - intros first others Hblocks Hbroken. split.
    + rewrite (getJSONCodeBlock_candidate text tree first others Hdirect Htree Hblocks).
      destruct (JSON_parse first); [discriminate | reflexivity].
    + destruct production; reflexivity.
Qed.

Lemma extraction_prefers_json_block_witness :
  let host := Stub.host true false in
  let tagged := {| lang := Some "json"; value := "[{}]" |} in
  let plain := {| lang := None; value := "{}" |} in
  (parseMarkdown Stub.jsonThenPlain = Return (Parent [Code tagged; Code plain]) /\
   getJSONCodeBlock Stub.jsonThenPlain = Return (JArray [JObject []]))
  /\
  (parseMarkdown Stub.plainThenJson = Return (Parent [Code plain; Code tagged]) /\
   getJSONCodeBlock Stub.plainThenJson = Return (JArray [JObject []])).
Proof.
  intros host tagged plain. split; (split; [reflexivity|]).
  - destruct (extraction_prefers_json_block (host := host) Stub.jsonThenPlain
                (Parent [Code tagged; Code plain]) tagged plain
                eq_refl eq_refl (or_introl eq_refl) eq_refl
                (or_intror (or_introl eq_refl)) eq_refl)
      as [earlier [last [Hlast Hresult]]].
    assert (Hsame : last = tagged).
    { change ([] ++ [tagged] = earlier ++ [last]) in Hlast.
      apply app_inj_tail in Hlast. symmetry. exact (proj2 Hlast). }
    rewrite Hresult, Hsame. reflexivity.
  - destruct (extraction_prefers_json_block (host := host) Stub.plainThenJson
                (Parent [Code plain; Code tagged]) tagged plain
                eq_refl eq_refl (or_intror (or_introl eq_refl)) eq_refl
                (or_introl eq_refl) eq_refl)
      as [earlier [last [Hlast Hresult]]].
    assert (Hsame : last = tagged).
    { change ([] ++ [tagged] = earlier ++ [last]) in Hlast.
      apply app_inj_tail in Hlast. symmetry. exact (proj2 Hlast). }
    rewrite Hresult, Hsame. reflexivity.
Defined.

Lemma extraction_tries_last_json_block_witness :
  let host := Stub.host true false in
  let first := {| lang := Some "json"; value := "[]" |} in
  let last := {| lang := Some "json"; value := "[{}]" |} in
  parseMarkdown Stub.twoJson = Return (Parent [Code first; Code last]) /\
  visit (Parent [Code first; Code last]) collectCodeBlock [] = ["[{}]"; "[]"] /\
  getJSONCodeBlock Stub.twoJson = Return (JArray [JObject []]).
Proof.
  intros host first last. split; [reflexivity|].
  exact (extraction_tries_last_json_block (host := host) Stub.twoJson
           (Parent [Code first; Code last]) [first] last
           eq_refl eq_refl eq_refl (le_n 1)).
Defined.

Lemma extraction_failure_marker_witness :
  let host := Stub.host true true in
  (getJSONCodeBlock "no blocks here"
   = Throw ("Parsing failed" +++ LF +++ LF +++ "No code blocks found")
   /\ includes ("Parsing failed" +++ LF +++ LF +++ "No code blocks found")
        "No code blocks found" = true)
  /\
  (getJSONCodeBlock Stub.brokenBlock = Throw "Parsing failed"
   /\ includes "Parsing failed" "No code blocks found" = false).
Proof.
  intros host. split.
  - refine (proj1 (extraction_failure_marker (host := host) "no blocks here"
                     (Parent []) eq_refl eq_refl) _).
    intros node [].
  - exact (proj2 (extraction_failure_marker (host := host) Stub.brokenBlock
                    (Parent [Code {| lang := Some "json"; value := "[oops" |}])
                    eq_refl eq_refl)
             "[oops" [] eq_refl eq_refl).
Defined.

(** ** Chain execution *)

(** C8 does not hold as stated: outside production mode, a text that
    holds the words of the marker and a block tagged [json] that does not
    parse has a candidate, and extraction fails on it with a message that
    includes the marker, because the text is echoed in the message. *)
Lemma extraction_failure_echoes_marker :
  let host := Stub.host true false in
  let broken := {| lang := Some "json"; value := "[oops" |} in
  isThrow (JSON_parse (trim Stub.markerWords)) = true
  /\ parseMarkdown Stub.markerWords = Return (Parent [Code broken])
  /\ visit (Parent [Code broken]) collectCodeBlock [] = ["[oops"]
  /\ isThrow (JSON_parse "[oops") = true
  /\ getJSONCodeBlock Stub.markerWords
     = Throw ("Parsing failed" +++ LF +++ LF +++ Stub.markerWords)
  /\ includes ("Parsing failed" +++ LF +++ LF +++ Stub.markerWords)
       "No code blocks found" = true.
Proof.
  intros host broken. repeat (split; [vm_compute; reflexivity|]).
  vm_compute. reflexivity.
Qed.

Section ChainFacts.

Context {host : Host} {W : Type}.
Variable complete : W -> list json -> W * Result CreateChatCompletionResponse.
Variable prompt : string.
Variable messages : Messages.

(** One successful turn of the loop. *)
Lemma chainLoop_turn (step : Step) (template : string) (rest : Steps) (i : nat)
    (responses : list (Step * string)) (w w' : W) (sent : Chain.Outbound)
    (history : list json) (completion : CreateChatCompletionResponse)
    (response : string) :
  historyFor messages i responses = Return history ->
  complete w (history ++ [userMessage template prompt]) = (w', Return completion) ->
  firstChoiceContent completion = Return response ->
  chainLoop complete prompt messages ((step, template) :: rest) i responses (w, sent)
  = chainLoop complete prompt messages rest (S i)
      (responses ++ [(step, response)])
      (w', sent ++ [history ++ [userMessage template prompt]]).
Proof.
  intros Hh Hc Hr. simpl. unfold Chain.bind, Chain.lift, Chain.call. simpl.
  rewrite Hh. simpl. rewrite Hc. simpl. rewrite Hr. reflexivity.
Qed.

(** The request of the last turn is handed to the client whatever the
    client then answers. *)
Lemma chainLoop_last_request (step : Step) (template : string) (i : nat)
    (responses : list (Step * string)) (w : W) (sent : Chain.Outbound)
    (history : list json) :
  historyFor messages i responses = Return history ->
  snd (fst (chainLoop complete prompt messages [(step, template)] i
              responses (w, sent)))
  = sent ++ [history ++ [userMessage template prompt]].
Proof.
  intros Hh. simpl. unfold Chain.bind, Chain.lift, Chain.call, Chain.ret. simpl.
  rewrite Hh. simpl.
  destruct (complete w (history ++ [userMessage template prompt]))
    as [w' [completion|e]]; simpl; [|reflexivity].
  destruct (firstChoiceContent completion); reflexivity.
Qed.

(** A client failure ends the chain with that failure. *)
Lemma chainLoop_client_failure (step : Step) (template : string) (rest : Steps)
    (i : nat) (responses : list (Step * string)) (w w' : W) (sent : Chain.Outbound)
    (history : list json) (cause : string) :
  historyFor messages i responses = Return history ->
  complete w (history ++ [userMessage template prompt]) = (w', Throw cause) ->
  chainLoop complete prompt messages ((step, template) :: rest) i responses (w, sent)
  = ((w', sent ++ [history ++ [userMessage template prompt]]), Throw cause).
Proof.
  intros Hh Hc. simpl. unfold Chain.bind, Chain.lift, Chain.call. simpl.
  rewrite Hh. simpl. rewrite Hc. reflexivity.
Qed.

End ChainFacts.

Section TwoSteps.

Context {host : Host} {W : Type}.
Variable complete : W -> list json -> W * Result CreateChatCompletionResponse.

(** The two requests of a chain of two steps whose first step succeeds. *)
Lemma chain_two_requests (prompt : string) (s0 s1 : Step) (t0 t1 : string)
    (messages : Messages) (h0 h1 : list json) (w w1 : W)
    (c0 : CreateChatCompletionResponse) (r0 : string) (sent : Chain.Outbound) :
  historyFor messages 0 [] = Return h0 ->
  complete w (h0 ++ [userMessage t0 prompt]) = (w1, Return c0) ->
  firstChoiceContent c0 = Return r0 ->
  historyFor messages 1 [(s0, r0)] = Return h1 ->
  snd (fst (getChainForPrompt prompt [(s0, t0); (s1, t1)] messages complete (w, sent)))
  = sent ++ [h0 ++ [userMessage t0 prompt]; h1 ++ [userMessage t1 prompt]].
Proof.
  intros Hh0 Hc0 Hr0 Hh1. unfold getChainForPrompt.
  rewrite (chainLoop_turn complete prompt messages s0 t0 [(s1, t1)] 0 []
             w w1 sent h0 c0 r0 Hh0 Hc0 Hr0).
  rewrite (chainLoop_last_request complete prompt messages s1 t1 1 _ w1 _ h1 Hh1).
  now rewrite <- app_assoc.
Qed.

(** Step 1 without a history of its own: the request is the reply of
    step 0 as an [assistant] message, then the [user] message that
    [replace] and [trim] make of the template of step 1. *)
Lemma chain_synthesized_history (prompt : string) (s0 s1 : Step) (t0 t1 : string)
    (m0 : json) (h0 : list json) (w w1 : W)
    (c0 : CreateChatCompletionResponse) (r0 : string) (sent : Chain.Outbound) :
  historyFor [m0; JNull] 0 [] = Return h0 ->
  complete w (h0 ++ [userMessage t0 prompt]) = (w1, Return c0) ->
  firstChoiceContent c0 = Return r0 ->
  snd (fst (getChainForPrompt prompt [(s0, t0); (s1, t1)] [m0; JNull] complete (w, sent)))
  = sent ++ [h0 ++ [userMessage t0 prompt];
             [requestMessage "assistant" r0; userMessage t1 prompt]].
Proof.
  intros Hh0 Hc0 Hr0.
  now apply (chain_two_requests prompt s0 s1 t0 t1 [m0; JNull] h0
               [requestMessage "assistant" r0] w w1 c0 r0 sent).
Qed.

End TwoSteps.

(** A prompt without a dollar sign takes the place of the marker. *)
Lemma userMessage_literal (before after prompt : string) :
  search promptMarker (before +++ promptMarker +++ after) = Some (before, after) ->
  includes prompt "$" = false ->
  userMessage (before +++ promptMarker +++ after) prompt
  = requestMessage "user" (trim (before +++ prompt +++ after)).
Proof.
  intros Hs Hp. unfold userMessage. now rewrite replace_literal.
Qed.

(** The prompt [$&] leaves the template as it was. *)
Lemma userMessage_matched (template : string) :
  userMessage template "$&" = requestMessage "user" (trim template).
Proof. unfold userMessage. now rewrite replace_matched. Qed.

(** C3. In a chain of two steps where step 1 has no history of its own, the
    request of step 1 is the reply of step 0 as an [assistant] message
    followed by one [user] message.  For the prompt [$&] that [user]
    message is the trimmed template of step 1 with the marker still in
    place: the prompt has not taken the place of the marker. *)
Theorem chain_synthesized_history_dollar_prompt {host : Host} {W : Type}
    (complete : W -> list json -> W * Result CreateChatCompletionResponse)
    (s0 s1 : Step) (t0 t1 : string) (m0 : json) (h0 : list json) (w w1 : W)
    (c0 : CreateChatCompletionResponse) (r0 : string) (sent : Chain.Outbound) :
  historyFor [m0; JNull] 0 [] = Return h0 ->
  complete w (h0 ++ [userMessage t0 "$&"]) = (w1, Return c0) ->
  firstChoiceContent c0 = Return r0 ->
  snd (fst (getChainForPrompt "$&" [(s0, t0); (s1, t1)] [m0; JNull] complete (w, sent)))
  = sent ++ [h0 ++ [requestMessage "user" (trim t0)];
             [requestMessage "assistant" r0; requestMessage "user" (trim t1)]].
Proof.
  intros Hh0 Hc0 Hr0.
  rewrite (chain_synthesized_history complete "$&" s0 s1 t0 t1 m0 h0 w w1 c0 r0 sent
             Hh0 Hc0 Hr0).
  now rewrite !userMessage_matched.
Qed.

(** C4. In a chain of two steps where step 1 comes with a history of its
    own, the request of step 1 is that history followed by the [user]
    message of step 1 and nothing else: the reply of step 0 is not put in
    front. *)
Theorem chain_explicit_history {host : Host} {W : Type}
    (complete : W -> list json -> W * Result CreateChatCompletionResponse)
    (prompt : string) (s0 s1 : Step) (t0 t1 : string) (m0 : json)
    (history h0 : list json) (w w1 : W)
    (c0 : CreateChatCompletionResponse) (r0 : string) (sent : Chain.Outbound) :
  historyFor [m0; JArray history] 0 [] = Return h0 ->
  complete w (h0 ++ [userMessage t0 prompt]) = (w1, Return c0) ->
  firstChoiceContent c0 = Return r0 ->
  snd (fst (getChainForPrompt prompt [(s0, t0); (s1, t1)] [m0; JArray history]
              complete (w, sent)))
  = sent ++ [h0 ++ [userMessage t0 prompt]; history ++ [userMessage t1 prompt]].
Proof.
  intros Hh0 Hc0 Hr0.
  now apply (chain_two_requests complete prompt s0 s1 t0 t1 [m0; JArray history] h0
               history w w1 c0 r0 sent).
Qed.

Lemma chain_synthesized_history_dollar_prompt_witness :
  let host := Stub.host true false in
  snd (fst (getChainForPrompt "$&" Stub.twoSteps [JNull; JNull]
              (complete Stub.config) (["[]"; "{}"], [])))
  = [] ++ [[] ++ [requestMessage "user" (trim (templates instances))];
           [requestMessage "assistant" "[]";
            requestMessage "user" (trim (templates styles))]].
Proof.
  intros host.
  exact (chain_synthesized_history_dollar_prompt (host := host)
           (complete Stub.config) instances styles
           (templates instances) (templates styles) JNull [] ["[]"; "{}"] ["{}"]
           {| choices := [ {| message := Some {| content := Some "[]" |} |} ] |}
           "[]" [] eq_refl eq_refl eq_refl).
Defined.

(** With the prompt [$&] the message sent for the styles step still holds
    the marker. *)
Example styles_message_keeps_marker :
  includes (trim (replace (templates styles) promptMarker "$&")) promptMarker = true.
Proof. vm_compute. reflexivity. Qed.

Lemma chain_explicit_history_witness :
  let host := Stub.host true false in
  let x := requestMessage "user" "x" in
  snd (fst (getChainForPrompt "make a button" Stub.twoSteps [JNull; JArray [x]]
              (complete Stub.config) (["[]"; "{}"], [])))
  = [] ++ [[] ++ [userMessage (templates instances) "make a button"];
           [x] ++ [userMessage (templates styles) "make a button"]].
Proof.
  intros host x.
  exact (chain_explicit_history (host := host)
           (complete Stub.config) "make a button" instances styles
           (templates instances) (templates styles) JNull [x] [] ["[]"; "{}"] ["{}"]
           {| choices := [ {| message := Some {| content := Some "[]" |} |} ] |}
           "[]" [] eq_refl eq_refl eq_refl).
Defined.

(** ** The orchestrator *)

Section GenerateFacts.

Context {host : Host}.

Lemma length_zero_empty (s : string) :
  (String.length s =? 0)%nat = String.eqb s EmptyString.
Proof. destruct s; reflexivity. Qed.

Lemma eqb_empty_false (s : string) :
  s <> EmptyString -> String.eqb s EmptyString = false.
Proof. intros Hs. now apply String.eqb_neq. Qed.

(** With credentials that pass the two checks, [generate] is its [try]
    block with the [catch] clause applied to what it throws. *)
Lemma generate_checked (userPrompt : string) (steps : Steps) (messages : Messages)
    (config : OpenAIConfig) (st : World * Chain.Outbound) :
  trim (apiKey config) <> EmptyString ->
  startsWith (organization config) "org-" = true ->
  generate userPrompt steps messages config st =
  match generateBody userPrompt steps messages config st with
  | (st', Return result) => (st', Return result)
  | (st', Throw message) =>
      (st', Throw ("Something went wrong. " +++
                   (if production then EmptyString else message)))
  end.
Proof.
  intros Hkey Horg. unfold generate.
  now rewrite length_zero_empty, (eqb_empty_false _ Hkey), Horg.
Qed.

Lemma mapResult_Forall2 {A B : Type} (f : A -> Result B) (xs : list A) (ys : list B) :
  Forall2 (fun x y => f x = Return y) xs ys -> mapResult f xs = Return ys.
Proof.
  induction 1 as [|x y xs ys Hxy _ IH]; simpl; [reflexivity|].
  now rewrite Hxy, IH.
Qed.

(** A failure of [xs.map(f)] is the failure of [f] on one element. *)
Lemma mapResult_failure {A B : Type} (f : A -> Result B) (xs : list A) (cause : string) :
  mapResult f xs = Throw cause -> exists x, In x xs /\ f x = Throw cause.
Proof.
  induction xs as [|x xs IH]; simpl; [discriminate|].
  destruct (f x) as [y|e] eqn:Hx; simpl.
  - destruct (mapResult f xs) as [ys|e]; simpl; [discriminate|].
    intros [= <-]. destruct (IH eq_refl) as [x' [Hin Hf]]. exists x'. auto.
  - intros [= <-]. exists x. auto.
Qed.

Lemma shapeResponse_ok (step : Step) (response : string) (value : json) :
  getJSONCodeBlock response = Return value ->
  validators step value = Return tt ->
  shapeResponse (step, response) = Return (step, arrayOf value).
Proof.
  intros Hx Hv. unfold shapeResponse. rewrite Hx. simpl. now rewrite Hv.
Qed.

(** What [shapeResponse] throws: the extraction failure as it is, or the
    validation failure under the [Invalid ... generation.] heading. *)
Lemma shapeResponse_failure (step : Step) (response cause : string) :
  shapeResponse (step, response) = Throw cause ->
  getJSONCodeBlock response = Throw cause
  \/ exists value reason,
       getJSONCodeBlock response = Return value
       /\ validators step value = Throw reason
       /\ cause = "Invalid " +++ Step_toString step +++ " generation. " +++
                  (if production then EmptyString
                   else JSON_stringify value +++ LF +++ LF +++ reason).
Proof.
  unfold shapeResponse. destruct (getJSONCodeBlock response) as [value|e]; simpl.
  - destruct (validators step value) as [u|reason] eqn:Hv; [discriminate|].
    intros [= <-]. right. exists value, reason. auto.
  - intros [= <-]. now left.
Qed.

(** Where a failure of the [try] block comes from: the chain, or the
    shaping of one of its responses. *)
Lemma generateBody_failure (userPrompt : string) (steps : Steps) (messages : Messages)
    (config : OpenAIConfig) (st st' : World * Chain.Outbound) (cause : string) :
  generateBody userPrompt steps messages config st = (st', Throw cause) ->
  getChainForPrompt userPrompt steps messages (complete config) st = (st', Throw cause)
  \/ exists responses entry,
       getChainForPrompt userPrompt steps messages (complete config) st
       = (st', Return responses)
       /\ In entry responses
       /\ shapeResponse entry = Throw cause.
Proof.
  unfold generateBody, Chain.bind, Chain.lift.
  destruct (getChainForPrompt userPrompt steps messages (complete config) st)
    as [st1 [responses|e]].
  - intros [= <- Hm]. right.
    destruct (mapResult_failure _ _ _ Hm) as [entry [Hin Hs]].
    exists responses, entry. auto.
  - intros [= <- <-]. now left.
Qed.

End GenerateFacts.

(** C6. With an API key that is empty once trimmed, or an organization
    that does not start with [org-], [generate] throws the corresponding
    credentials error and leaves the network and the list of sent requests
    as they were: the completion client has not been called. *)
Theorem generate_rejects_bad_config {host : Host}
    (userPrompt : string) (steps : Steps) (messages : Messages)
    (config : OpenAIConfig) (st : World * Chain.Outbound) :
  trim (apiKey config) = EmptyString
  \/ startsWith (organization config) "org-" = false ->
  generate userPrompt steps messages config st
  = (st, Throw (if String.eqb (trim (apiKey config)) EmptyString
                then "OpenAI API missing"
                else "OpenAI org missing or invalid")).
Proof.
  intros Hbad. unfold generate. rewrite length_zero_empty.
  destruct (String.eqb (trim (apiKey config)) EmptyString) eqn:Hkey; [reflexivity|].
  destruct Hbad as [Hempty|Horg].
  - rewrite Hempty in Hkey. discriminate.
  - now rewrite Horg.
Qed.

Lemma generate_rejects_bad_config_witness :
  let host := Stub.host true false in
  let blankKey := {| apiKey := "  "; organization := "org-test";
                     model := gpt_4; maxTokens := 100 |} in
  let badOrg := {| apiKey := "sk-test"; organization := "acme";
                   model := gpt_4; maxTokens := 100 |} in
  generate "make a button" Stub.twoSteps [JNull; JNull] blankKey (["[]"], [])
  = ((["[]"], []), Throw "OpenAI API missing")
  /\
  generate "make a button" Stub.twoSteps [JNull; JNull] badOrg (["[]"], [])
  = ((["[]"], []), Throw "OpenAI org missing or invalid").
Proof.
  intros host blankKey badOrg. split.
  - exact (generate_rejects_bad_config (host := host) "make a button" Stub.twoSteps
             [JNull; JNull] blankKey (["[]"], []) (or_introl eq_refl)).
  - exact (generate_rejects_bad_config (host := host) "make a button" Stub.twoSteps
             [JNull; JNull] badOrg (["[]"], []) (or_intror eq_refl)).
Defined.

(** C7. Whatever fails inside the [try] block of [generate] (the chain, the
    extraction or the validation of a response), the error that leaves
    [generate] in production mode has the fixed message
    [Something went wrong. ], which does not depend on the cause; outside
    production mode the message is that heading followed by the message of
    the cause. *)
Theorem generate_failure_message {host : Host}
    (userPrompt : string) (steps : Steps) (messages : Messages)
    (config : OpenAIConfig) (st st' : World * Chain.Outbound) (cause : string) :
  trim (apiKey config) <> EmptyString ->
  startsWith (organization config) "org-" = true ->
  generateBody userPrompt steps messages config st = (st', Throw cause) ->
  generate userPrompt steps messages config st
  = (st', Throw (if production then "Something went wrong. "
                 else "Something went wrong. " +++ cause)).
Proof.
  intros Hkey Horg Hbody.
  rewrite (generate_checked userPrompt steps messages config st Hkey Horg), Hbody.
  destruct production; reflexivity.
Qed.

(** C9. When the chain has returned its responses and each of them is
    extracted and validated, [generate] returns one entry per response, in
    order: the step with the extracted value itself when that value is an
    array, and with the one-element array holding it otherwise. *)
Theorem generate_output_entries {host : Host}
    (userPrompt : string) (steps : Steps) (messages : Messages)
    (config : OpenAIConfig) (st st' : World * Chain.Outbound)
    (responses : list (Step * string)) (values : list json) :
  trim (apiKey config) <> EmptyString ->
  startsWith (organization config) "org-" = true ->
  getChainForPrompt userPrompt steps messages (complete config) st
  = (st', Return responses) ->
  Forall2 (fun entry value =>
             getJSONCodeBlock (snd entry) = Return value
             /\ validators (fst entry) value = Return tt)
          responses values ->
  generate userPrompt steps messages config st
  = (st', Return (map (fun pair : (Step * string) * json =>
                         (fst (fst pair),
                          match snd pair with
                          | JArray items => items
                          | _ => [snd pair]
                          end))
                      (combine responses values))).
Proof.
  intros Hkey Horg Hchain Hall.
  rewrite (generate_checked userPrompt steps messages config st Hkey Horg).
  unfold generateBody, Chain.bind, Chain.lift. rewrite Hchain.
  rewrite (mapResult_Forall2 shapeResponse responses
             (map (fun pair : (Step * string) * json =>
                     (fst (fst pair), arrayOf (snd pair)))
                  (combine responses values))); [reflexivity|].
  clear Hchain.
  induction Hall as [|[step response] value responses values [Hx Hv] _ IH]; simpl.
  - constructor.
  - constructor; [|exact IH]. now apply shapeResponse_ok.
Qed.

Lemma generate_failure_message_witness :
  let prod := Stub.host true true in
  let dev := Stub.host true false in
  let sent := [[userMessage "Build this: <!--prompt-content-->" "make a button"]] in
  (* the service is down, production *)
  generate (host := prod) "make a button" Stub.oneStep [JNull] Stub.config ([], [])
  = (([], sent), Throw "Something went wrong. ")
  /\
  (* the reply holds no JSON, production *)
  generate (host := prod) "make a button" Stub.oneStep [JNull] Stub.config (["hello"], [])
  = (([], sent), Throw "Something went wrong. ")
  /\
  (* the service is down, development *)
  generate (host := dev) "make a button" Stub.oneStep [JNull] Stub.config ([], [])
  = (([], sent), Throw "Something went wrong. 503: Service Unavailable").
Proof.
  intros prod dev sent. split; [|split].
  - refine (generate_failure_message (host := prod) "make a button" Stub.oneStep
              [JNull] Stub.config ([], []) ([], sent) "503: Service Unavailable"
              _ eq_refl eq_refl).
    discriminate.
  - refine (generate_failure_message (host := prod) "make a button" Stub.oneStep
              [JNull] Stub.config (["hello"], []) ([], sent)
              ("Parsing failed" +++ LF +++ LF +++ "No code blocks found")
              _ eq_refl eq_refl).
    discriminate.
  - refine (generate_failure_message (host := dev) "make a button" Stub.oneStep
              [JNull] Stub.config ([], []) ([], sent) "503: Service Unavailable"
              _ eq_refl eq_refl).
    discriminate.
Defined.

Lemma generate_output_entries_witness :
  let sent := [[userMessage "Build this: <!--prompt-content-->" "make a button"]] in
  (* an array is returned as it is *)
  generate (host := Stub.lenient) "make a button" Stub.oneStep [JNull] Stub.config
    (["[{}]"], [])
  = (([], sent), Return [(instances, [JObject []])])
  /\
  (* any other value is wrapped in an array *)
  generate (host := Stub.lenient) "make a button" Stub.oneStep [JNull] Stub.config
    (["{}"], [])
  = (([], sent), Return [(instances, [JObject []])]).
Proof.
  intros sent. split.
  - refine (generate_output_entries (host := Stub.lenient) "make a button"
              Stub.oneStep [JNull] Stub.config (["[{}]"], []) ([], sent)
              [(instances, "[{}]")] [JArray [JObject []]] _ eq_refl eq_refl _).
    + discriminate.
    + repeat constructor.
  - refine (generate_output_entries (host := Stub.lenient) "make a button"
              Stub.oneStep [JNull] Stub.config (["{}"], []) ([], sent)
              [(instances, "{}")] [JObject []] _ eq_refl eq_refl _).
    + discriminate.
    + repeat constructor.
Defined.

(** ** The entry point *)

Section ActionFacts.

Context {host : Host}.

Lemma mapResult_ext {A B : Type} (f g : A -> Result B) (xs : list A) :
  (forall x, f x = g x) -> mapResult f xs = mapResult g xs.
Proof.
  intros Hfg. induction xs as [|x xs IH]; simpl; [reflexivity|].
  now rewrite Hfg, IH.
Qed.

Lemma mapResult_map {A B C : Type} (g : A -> B) (f : B -> Result C) (xs : list A) :
  mapResult f (map g xs) = mapResult (fun x => f (g x)) xs.
Proof.
  induction xs as [|x xs IH]; simpl; [reflexivity|]. now rewrite IH.
Qed.

Lemma mapResult_length {A B : Type} (f : A -> Result B) (xs : list A) (ys : list B) :
  mapResult f xs = Return ys -> List.length ys = List.length xs.
Proof.
  revert ys; induction xs as [|x xs IH]; intros ys; simpl.
  - now intros [= <-].
  - destruct (f x) as [y|e]; simpl; [|discriminate].
    destruct (mapResult f xs) as [ys'|e]; simpl; [|discriminate].
    intros [= <-]. simpl. now rewrite (IH ys' eq_refl).
Qed.

(** Reading the entries by index for [n] steps is decoding the entries
    cut or padded to [n]. *)
Lemma entries_by_index (entries : list (option string)) (n : nat) :
  mapResult (entryAt entries) (seq 0 n)
  = mapResult decodeEntry
      (firstn n (entries ++ repeat None (n - List.length entries))).
Proof.
  revert entries; induction n as [|n IH]; intros entries; [reflexivity|].
  cbn [seq mapResult]. rewrite <- seq_shift, mapResult_map.
  destruct entries as [|entry entries].
  - rewrite (mapResult_ext _ (entryAt []));
      [|intros i; unfold entryAt; now destruct i].
    rewrite IH. simpl. now rewrite Nat.sub_0_r.
  - rewrite (mapResult_ext _ (entryAt entries)); [|reflexivity].
    rewrite IH. simpl. unfold entryAt at 1. simpl. now destruct entry.
Qed.

Lemma alignedEntries_length (formData : FormData) :
  List.length (alignedEntries formData) = List.length (steps formData).
Proof.
  unfold alignedEntries. rewrite length_firstn, length_app, repeat_length. lia.
Qed.

Lemma stepMessages_aligned (formData : FormData) (steps' : Steps) :
  List.length steps' = List.length (steps formData) ->
  stepMessages formData steps' = mapResult decodeEntry (alignedEntries formData).
Proof.
  intros Hlen. unfold stepMessages, alignedEntries. rewrite Hlen.
  apply (entries_by_index (messages formData)).
Qed.

(** With the feature enabled, a failure is reported as one string. *)
Lemma action_enabled_errors (request : FormEntries) (st : World * Chain.Outbound)
    (errors : list string) :
  isFeatureEnabled_ai = true ->
  snd (action request st) <> ErrorsList errors.
Proof.
  intros Hon. unfold action. rewrite Hon. simpl.
  destruct (schema_parse request) as [formData|e]; [|discriminate].
  destruct (stepMessages formData _) as [histories|e]; [|discriminate].
  destruct (generate _ _ _ _ st) as [st' [result|e]]; discriminate.
Qed.

End ActionFacts.

(** C1 does not hold: a form with one step and no [messages] entry, and a
    form with one step and two [messages] entries, are both carried
    through to a generated result. *)
Lemma action_accepts_length_mismatch :
  let host := Stub.host true false in
  (List.length (messages_entries (Stub.form []))
   <> List.length (steps_entries (Stub.form []))
   /\ snd (action (Stub.form []) (["[]"], [])) = Generated [(instances, [])])
  /\
  (List.length (messages_entries (Stub.form ["[]"; "junk"]))
   <> List.length (steps_entries (Stub.form ["[]"; "junk"]))
   /\ snd (action (Stub.form ["[]"; "junk"]) (["[]"], [])) = Generated [(instances, [])]).
Proof.
  intros host. split; (split; [discriminate | vm_compute; reflexivity]).
Qed.

(** C1 as amended.  For a form that the schema accepts, the lengths of
    [messages] and [steps] are not compared: the histories handed to
    [generate] are the entries of [messages] cut or padded with absent
    entries to the number of steps and then decoded, one history per step.
    When they decode, the result of the route is the result of [generate]
    on them; when one of them does not, the route reports the message of
    that failure. *)
Theorem action_aligns_messages {host : Host}
    (request : FormEntries) (formData : FormData) (st : World * Chain.Outbound) :
  isFeatureEnabled_ai = true ->
  schema_parse request = Return formData ->
  List.length (alignedEntries formData) = List.length (steps formData)
  /\
  stepMessages formData (map (fun step => (step, templates step)) (steps formData))
  = mapResult decodeEntry (alignedEntries formData)
  /\
  (forall histories,
     mapResult decodeEntry (alignedEntries formData) = Return histories ->
     List.length histories = List.length (steps formData)
     /\
     action request st =
     match
       generate (trim (prompt formData))
         (map (fun step => (step, templates step)) (steps formData))
         histories
         {| apiKey := orEmpty env_OPENAI_KEY;
            organization := orEmpty env_OPENAI_ORG;
            model := gpt_3_5_turbo;
            maxTokens := 3000 |} st
     with
     | (st', Return result) => (st', Generated result)
     | (st', Throw message) => (st', ErrorsString message)
     end)
  /\
  (forall message,
     mapResult decodeEntry (alignedEntries formData) = Throw message ->
     action request st = (st, ErrorsString message)).
Proof.
  intros Hon Hform.
  assert (Haligned :
            stepMessages formData
              (map (fun step => (step, templates step)) (steps formData))
            = mapResult decodeEntry (alignedEntries formData)).
  { apply stepMessages_aligned. apply length_map. }
  split; [apply alignedEntries_length|]. split; [exact Haligned|]. split.
  - intros histories Hdecoded. split.
    + rewrite (mapResult_length _ _ _ Hdecoded). apply alignedEntries_length.
    + unfold action. rewrite Hon. simpl. rewrite Hform, Haligned, Hdecoded.
      reflexivity.
  - intros message Hfailed.
    unfold action. rewrite Hon. simpl. rewrite Hform, Haligned, Hfailed.
    reflexivity.
Qed.

Lemma action_aligns_messages_witness :
  let host := Stub.host true false in
  let formData := {| prompt := "make a button"; steps := [instances];
                     messages := [] |} in
  schema_parse (Stub.form []) = Return formData
  /\ alignedEntries formData = [None]
  /\ stepMessages formData [(instances, templates instances)] = Return [JNull]
  /\ snd (action (Stub.form []) (["[]"], [])) = Generated [(instances, [])].
Proof.
  intros host formData.
  pose proof (action_aligns_messages (host := host) (Stub.form []) formData
                (["[]"], []) eq_refl eq_refl) as [_ [Hsteps [Hrun _]]].
  split; [reflexivity|]. split; [reflexivity|]. split; [exact Hsteps|].
  destruct (Hrun [JNull] eq_refl) as [_ Haction].
  rewrite Haction. vm_compute. reflexivity.
Defined.

(** C5. With the feature flag off, the route answers with [errors] holding
    a list of one string, not a string. *)
Theorem action_feature_disabled {host : Host}
    (request : FormEntries) (st : World * Chain.Outbound) :
  isFeatureEnabled_ai = false ->
  action request st = (st, ErrorsList ["Feature not available"]).
Proof.
  intros Hoff. unfold action. now rewrite Hoff.
Qed.

Lemma action_feature_disabled_witness :
  let host := Stub.host false false in
  action (Stub.form []) (["[]"], [])
  = ((["[]"], []), ErrorsList ["Feature not available"]).
Proof.
  intros host.
  exact (action_feature_disabled (host := host) (Stub.form []) (["[]"], []) eq_refl).
Defined.

(** The route accepts the prompt [$&] and sends the instances template
    with its marker in place. *)
Example action_dollar_prompt :
  let host := Stub.host true false in
  action Stub.dollarForm (["[]"], [])
  = (([], [[requestMessage "user" (trim (templates instances))]]),
     Generated [(instances, [])]).
Proof. vm_compute. reflexivity. Qed.

(** * Further properties of the module *)

(** ** The loop of the chain *)

Section ChainLoopFacts.

Context {host : Host} {W : Type}.
Variable complete : W -> list json -> W * Result CreateChatCompletionResponse.
Variable prompt : string.
Variable messages : Messages.

(** One turn of the loop, whatever happens in it. *)
Lemma chainLoop_cons (step : Step) (template : string) (rest : Steps) (i : nat)
    (responses : list (Step * string)) (w : W) (sent : Chain.Outbound) :
  chainLoop complete prompt messages ((step, template) :: rest) i responses (w, sent)
  = match historyFor messages i responses with
    | Throw e => ((w, sent), Throw e)
    | Return history =>
        let request := history ++ [userMessage template prompt] in
        match complete w request with
        | (w', Throw e) => ((w', sent ++ [request]), Throw e)
        | (w', Return completion) =>
            match firstChoiceContent completion with
            | Throw e => ((w', sent ++ [request]), Throw e)
            | Return response =>
                chainLoop complete prompt messages rest (S i)
                  (responses ++ [(step, response)]) (w', sent ++ [request])
            end
        end
    end.
Proof.
  simpl. unfold Chain.bind, Chain.lift, Chain.call. simpl.
  destruct (historyFor messages i responses) as [history|e]; [|reflexivity].
  simpl. destruct (complete w (history ++ [userMessage template prompt]))
    as [w' [completion|e]]; [|reflexivity].
  simpl. destruct (firstChoiceContent completion); reflexivity.
Qed.

(** What a run of the loop leaves behind: the requests it has sent, one
    for each step it has started, each ending with the user message of its
    step; after a successful run, one response for each step. *)
Lemma chainLoop_run (rest : Steps) :
  forall (i : nat) (responses : list (Step * string)) (w : W) (sent : Chain.Outbound)
         (st' : W * Chain.Outbound) (outcome : Result (list (Step * string))),
    chainLoop complete prompt messages rest i responses (w, sent) = (st', outcome) ->
    exists requests,
      snd st' = sent ++ requests
      /\ (List.length requests <= List.length rest)%nat
      /\ Forall2 (fun request entry =>
                    exists history,
                      request = history ++ [userMessage (snd entry) prompt])
                 requests (firstn (List.length requests) rest)
      /\ forall out, outcome = Return out ->
           List.length requests = List.length rest
           /\ exists new, out = responses ++ new /\ map fst new = map fst rest.
Proof.
  induction rest as [|[step template] rest IH]; intros i responses w sent st' outcome Hrun.
  - simpl in Hrun. unfold Chain.ret in Hrun. injection Hrun as <- <-.
    exists []. simpl. rewrite app_nil_r.
    split; [reflexivity|]. split; [lia|]. split; [constructor|].
    intros out [= <-]. split; [reflexivity|].
    exists []. now rewrite app_nil_r.
  - rewrite chainLoop_cons in Hrun.
    destruct (historyFor messages i responses) as [history|e].
    + cbv zeta in Hrun.
      destruct (complete w (history ++ [userMessage template prompt]))
        as [w' [completion|e]].
      * destruct (firstChoiceContent completion) as [response|e].
        -- destruct (IH _ _ _ _ _ _ Hrun) as [requests [Hsent [Hlen [Hlast Hout]]]].
           exists ((history ++ [userMessage template prompt]) :: requests).
           split; [now rewrite Hsent, <- app_assoc|].
           split; [simpl; lia|]. split.
           ++ simpl. constructor; [now exists history | exact Hlast].
           ++ intros out Hreturn.
              destruct (Hout out Hreturn) as [Hall [new [Hnew Hsteps]]].
              split; [simpl; lia|].
              exists ((step, response) :: new). split.
              ** now rewrite Hnew, <- app_assoc.
              ** simpl. now rewrite Hsteps.
        -- injection Hrun as <- <-.
           exists [history ++ [userMessage template prompt]].
           split; [reflexivity|]. split; [simpl; lia|]. split.
           ++ simpl. constructor; [now exists history | constructor].
           ++ discriminate.
      * injection Hrun as <- <-.
        exists [history ++ [userMessage template prompt]].
        split; [reflexivity|]. split; [simpl; lia|]. split.
        -- simpl. constructor; [now exists history | constructor].
        -- discriminate.
    + injection Hrun as <- <-. exists []. simpl. rewrite app_nil_r.
      split; [reflexivity|]. split; [lia|]. split; [constructor | discriminate].
Qed.

End ChainLoopFacts.

Section ChainCompositionFacts.

Context {host : Host} {W : Type}.
Variable complete : W -> list json -> W * Result CreateChatCompletionResponse.
Variable prompt : string.
Variable messages : Messages.

(** The loop over [rest1 ++ rest2] is the loop over [rest1] followed, when
    it succeeds, by the loop over [rest2]. *)
Lemma chainLoop_app (rest1 rest2 : Steps) :
  forall (i : nat) (responses : list (Step * string)) (st : W * Chain.Outbound),
    chainLoop complete prompt messages (rest1 ++ rest2) i responses st
    = match chainLoop complete prompt messages rest1 i responses st with
      | (st1, Return responses1) =>
          chainLoop complete prompt messages rest2 (i + List.length rest1)
            responses1 st1
      | (st1, Throw e) => (st1, Throw e)
      end.
Proof.
  induction rest1 as [|[step template] rest1 IH]; intros i responses [w sent].
  - simpl. unfold Chain.ret. now rewrite Nat.add_0_r.
  - change (((step, template) :: rest1) ++ rest2)
      with ((step, template) :: (rest1 ++ rest2)).
    rewrite !chainLoop_cons.
    destruct (historyFor messages i responses) as [history|e]; [|reflexivity].
    cbv zeta.
    destruct (complete w (history ++ [userMessage template prompt]))
      as [w' [completion|e]]; [|reflexivity].
    destruct (firstChoiceContent completion) as [response|e]; [|reflexivity].
    rewrite IH. simpl List.length. now rewrite Nat.add_succ_r.
Qed.

(** After a successful run, the request of every step is the history that
    [historyFor] gives for the step from the responses before it, followed
    by the user message of the step. *)
Lemma chainLoop_histories (rest : Steps) :
  forall (i : nat) (responses : list (Step * string)) (w : W) (sent : Chain.Outbound)
         (st' : W * Chain.Outbound) (out : list (Step * string)),
    i = List.length responses ->
    chainLoop complete prompt messages rest i responses (w, sent) = (st', Return out) ->
    forall (k : nat) (step : Step) (template : string),
      nth_error rest k = Some (step, template) ->
      exists history,
        historyFor messages (i + k) (firstn (i + k) out) = Return history
        /\ nth_error (snd st') (List.length sent + k)
           = Some (history ++ [userMessage template prompt]).
Proof.
  induction rest as [|[step0 template0] rest IH];
    intros i responses w sent st' out Hi Hrun k step template Hk.
  - now destruct k.
  - rewrite chainLoop_cons in Hrun.
    destruct (historyFor messages i responses) as [history|e] eqn:Hh; [|discriminate].
    cbv zeta in Hrun.
    destruct (complete w (history ++ [userMessage template0 prompt]))
      as [w' [completion|e]]; [|discriminate].
    destruct (firstChoiceContent completion) as [response|e]; [|discriminate].
    destruct (chainLoop_run complete prompt messages rest _ _ _ _ _ _ Hrun)
      as [requests [Hsent [_ [_ Hout]]]].
    destruct (Hout out eq_refl) as [_ [new [Hnew _]]].
    destruct k as [|k].
    + injection Hk as <- <-. exists history. split.
      * rewrite Nat.add_0_r, Hnew, <- app_assoc, Hi.
        rewrite firstn_app, Nat.sub_diag, firstn_all. simpl.
        rewrite app_nil_r. rewrite <- Hi. exact Hh.
      * rewrite Hsent, <- app_assoc, Nat.add_0_r.
        rewrite nth_error_app2 by lia. now rewrite Nat.sub_diag.
    + simpl in Hk.
      destruct (IH (S i) (responses ++ [(step0, response)]) w'
                  (sent ++ [history ++ [userMessage template0 prompt]]) st' out)
        with (k := k) (step := step) (template := template)
        as [history' [Hh' Hreq]]; try assumption.
      * rewrite length_app. simpl. lia.
      * exists history'. split.
        -- now rewrite Nat.add_succ_r.
        -- rewrite length_app in Hreq. simpl in Hreq.
           now replace (List.length sent + S k)%nat with (List.length sent + 1 + k)%nat by lia.
Qed.

End ChainCompositionFacts.

Section ListFacts.

Context {A B : Type}.

Lemma Forall2_nth_error (R : A -> B -> Prop) (l1 : list A) (l2 : list B) :
  Forall2 R l1 l2 ->
  forall k a, nth_error l1 k = Some a ->
    exists b, nth_error l2 k = Some b /\ R a b.
Proof.
  induction 1 as [|x y l1 l2 Hxy _ IH]; intros k a Hk.
  - now destruct k.
  - destruct k as [|k]; simpl in *.
    + injection Hk as <-. now exists y.
    + now apply IH.
Qed.

Lemma nth_error_firstn_some (n : nat) (l : list A) (k : nat) (a : A) :
  nth_error (firstn n l) k = Some a -> nth_error l k = Some a.
Proof.
  revert l k; induction n as [|n IH]; intros l k Hk.
  - now destruct k.
  - destruct l as [|x l]; [now destruct k|].
    destruct k as [|k]; simpl in *; [assumption | now apply IH].
Qed.

Lemma nth_error_firstn_below (n : nat) (l : list A) (k : nat) :
  (k < n)%nat -> nth_error (firstn n l) k = nth_error l k.
Proof.
  revert l k; induction n as [|n IH]; intros l k Hk; [lia|].
  destruct l as [|x l]; [now destruct k|].
  destruct k as [|k]; simpl; [reflexivity | apply IH; lia].
Qed.

End ListFacts.

(** X1. A chain that succeeds returns one response per step, in the order
    of the steps and under their identifiers. *)
Theorem chain_one_response_per_step {host : Host} {W : Type}
    (complete : W -> list json -> W * Result CreateChatCompletionResponse)
    (prompt : string) (steps : Steps) (messages : Messages)
    (st st' : W * Chain.Outbound) (out : list (Step * string)) :
  getChainForPrompt prompt steps messages complete st = (st', Return out) ->
  map fst out = map fst steps /\ List.length out = List.length steps.
Proof.
  destruct st as [w sent]. unfold getChainForPrompt. intros Hrun.
  destruct (chainLoop_run complete prompt messages steps _ _ _ _ _ _ Hrun)
    as [requests [_ [_ [_ Hout]]]].
  destruct (Hout out eq_refl) as [_ [new [Hnew Hsteps]]].
  simpl in Hnew. subst new. split; [exact Hsteps|].
  now rewrite <- (length_map fst out), Hsteps, length_map.
Qed.

(** X2. Whatever its outcome, a chain only adds to the requests already
    sent, and it adds at most one request per step; when it succeeds it has
    added exactly one per step. *)
Theorem chain_one_request_per_step {host : Host} {W : Type}
    (complete : W -> list json -> W * Result CreateChatCompletionResponse)
    (prompt : string) (steps : Steps) (messages : Messages)
    (w : W) (sent : Chain.Outbound) (st' : W * Chain.Outbound)
    (outcome : Result (list (Step * string))) :
  getChainForPrompt prompt steps messages complete (w, sent) = (st', outcome) ->
  exists requests,
    snd st' = sent ++ requests
    /\ (List.length requests <= List.length steps)%nat
    /\ (isThrow outcome = false -> List.length requests = List.length steps).
Proof.
  unfold getChainForPrompt. intros Hrun.
  destruct (chainLoop_run complete prompt messages steps _ _ _ _ _ _ Hrun)
    as [requests [Hsent [Hlen [_ Hout]]]].
  exists requests. split; [exact Hsent|]. split; [exact Hlen|].
  destruct outcome as [out|e]; [|discriminate].
  intros _. now destruct (Hout out eq_refl).
Qed.

(** X3. Every request that a chain sends belongs to one of its steps, the
    k-th request to the k-th step, and ends with the user message made of
    that step's template and the prompt. *)
Theorem chain_user_message_last {host : Host} {W : Type}
    (complete : W -> list json -> W * Result CreateChatCompletionResponse)
    (prompt : string) (steps : Steps) (messages : Messages)
    (w : W) (sent : Chain.Outbound) (st' : W * Chain.Outbound)
    (outcome : Result (list (Step * string))) (k : nat) (request : list json) :
  getChainForPrompt prompt steps messages complete (w, sent) = (st', outcome) ->
  nth_error (snd st') (List.length sent + k) = Some request ->
  exists step template history,
    nth_error steps k = Some (step, template)
    /\ request = history ++ [userMessage template prompt].
Proof.
  unfold getChainForPrompt. intros Hrun Hk.
  destruct (chainLoop_run complete prompt messages steps _ _ _ _ _ _ Hrun)
    as [requests [Hsent [_ [Hlast _]]]].
  rewrite Hsent, nth_error_app2 in Hk by lia.
  replace (List.length sent + k - List.length sent)%nat with k in Hk by lia.
  destruct (Forall2_nth_error _ _ _ Hlast k request Hk)
    as [[step template] [Hstep [history Hrequest]]].
  exists step, template, history. split; [|exact Hrequest].
  now apply nth_error_firstn_some in Hstep.
Qed.

(** X4. In a chain of any length that succeeds, the request of a step
    after the first is decided by that step's own entry of [messages]:
    with [null] it is the response of the step before as an assistant
    message followed by the user message; with an array it is that array
    followed by the user message. *)
Theorem chain_later_request {host : Host} {W : Type}
    (complete : W -> list json -> W * Result CreateChatCompletionResponse)
    (prompt : string) (steps : Steps) (messages : Messages)
    (w : W) (sent : Chain.Outbound) (st' : W * Chain.Outbound)
    (out : list (Step * string)) (j : nat) (step : Step) (template : string) :
  getChainForPrompt prompt steps messages complete (w, sent) = (st', Return out) ->
  nth_error steps (S j) = Some (step, template) ->
  (nth_error messages (S j) = Some JNull ->
   exists previous,
     nth_error out j = Some previous
     /\ nth_error (snd st') (List.length sent + S j)
        = Some [requestMessage "assistant" (snd previous);
                userMessage template prompt])
  /\
  (forall history,
     nth_error messages (S j) = Some (JArray history) ->
     nth_error (snd st') (List.length sent + S j)
     = Some (history ++ [userMessage template prompt])).
Proof.
  intros Hrun Hstep.
  destruct (chainLoop_histories complete prompt messages steps 0 [] w sent st' out
              eq_refl Hrun (S j) step template Hstep) as [history [Hh Hreq]].
  change (0 + S j)%nat with (S j) in Hh. unfold historyFor in Hh.
  split.
  - intros Hnull. rewrite Hnull in Hh.
    change (0 <? S j)%nat with true in Hh. cbv iota in Hh.
    replace (S j - 1)%nat with j in Hh by lia.
    rewrite nth_error_firstn_below in Hh by lia.
    destruct (nth_error out j) as [previous|] eqn:Hprev.
    + injection Hh as <-. now exists previous.
    + exfalso. apply nth_error_None in Hprev.
      unfold getChainForPrompt in Hrun.
      destruct (chainLoop_run complete prompt messages steps _ _ _ _ _ _ Hrun)
        as [requests [_ [_ [_ Hout]]]].
      destruct (Hout out eq_refl) as [_ [new [Hnew Hsteps]]].
      simpl in Hnew. subst new.
      assert (Hlen : List.length out = List.length steps)
        by now rewrite <- (length_map fst out), Hsteps, length_map.
      assert (Hlt : (S j < List.length steps)%nat)
        by (apply nth_error_Some; now rewrite Hstep).
      lia.
  - intros explicit Harray. rewrite Harray in Hh. simpl in Hh.
    injection Hh as <-. exact Hreq.
Qed.

(** X5. The first step never gets an assistant message: when its entry of
    [messages] is [null], its request is the user message alone, whatever
    the chain does afterwards. *)
Theorem chain_first_request {host : Host} {W : Type}
    (complete : W -> list json -> W * Result CreateChatCompletionResponse)
    (prompt : string) (step : Step) (template : string) (rest : Steps)
    (messages : Messages) (w : W) (sent : Chain.Outbound)
    (st' : W * Chain.Outbound) (outcome : Result (list (Step * string))) :
  nth_error messages 0 = Some JNull ->
  getChainForPrompt prompt ((step, template) :: rest) messages complete (w, sent)
  = (st', outcome) ->
  nth_error (snd st') (List.length sent) = Some [userMessage template prompt].
Proof.
  intros Hnull. unfold getChainForPrompt. rewrite chainLoop_cons.
  unfold historyFor. rewrite Hnull. simpl.
  destruct (complete w [userMessage template prompt]) as [w' [completion|e]].
  - destruct (firstChoiceContent completion) as [response|e].
    + intros Hrun.
      destruct (chainLoop_run complete prompt messages rest _ _ _ _ _ _ Hrun)
        as [requests [Hsent _]].
      rewrite Hsent, <- app_assoc, nth_error_app2 by lia.
      now rewrite Nat.sub_diag.
    + intros [= <- _]. simpl. rewrite nth_error_app2 by lia.
      now rewrite Nat.sub_diag.
  - intros [= <- _]. simpl. rewrite nth_error_app2 by lia.
    now rewrite Nat.sub_diag.
Qed.

(** X6. A chain that fails keeps failing in the same way when more steps
    are put after it: the added steps are never started, so the error and
    the requests sent are the same. *)
Theorem chain_failure_aborts {host : Host} {W : Type}
    (complete : W -> list json -> W * Result CreateChatCompletionResponse)
    (prompt : string) (steps later : Steps) (messages : Messages)
    (st st' : W * Chain.Outbound) (cause : string) :
  getChainForPrompt prompt steps messages complete st = (st', Throw cause) ->
  getChainForPrompt prompt (steps ++ later) messages complete st = (st', Throw cause).
Proof.
  unfold getChainForPrompt. intros Hrun. now rewrite chainLoop_app, Hrun.
Qed.

(** X7. When the steps before have succeeded and the entry of [messages]
    for the next step is missing, or is a value other than [null], an array
    or a string, the chain throws the fault of spreading a value that is not
    iterable, and the request of that step is not sent. *)
Theorem chain_bad_history_sends_nothing {host : Host} {W : Type}
    (complete : W -> list json -> W * Result CreateChatCompletionResponse)
    (prompt : string) (before rest : Steps) (step : Step) (template : string)
    (messages : Messages) (st st1 : W * Chain.Outbound)
    (responses : list (Step * string)) :
  getChainForPrompt prompt before messages complete st = (st1, Return responses) ->
  nth_error messages (List.length before) = None
  \/ (exists m,
        nth_error messages (List.length before) = Some m
        /\ m <> JNull
        /\ (forall items, m <> JArray items)
        /\ (forall s, m <> JString s)) ->
  getChainForPrompt prompt (before ++ (step, template) :: rest) messages complete st
  = (st1, Throw (TypeError_message NotIterable)).
Proof.
  unfold getChainForPrompt. intros Hrun Hbad.
  rewrite chainLoop_app, Hrun. destruct st1 as [w1 sent1].
  rewrite chainLoop_cons. simpl Nat.add. unfold historyFor.
  destruct Hbad as [Hnone | [m [Hm [Hnull [Harray Hstring]]]]].
  - now rewrite Hnone.
  - rewrite Hm. destruct m; try reflexivity.
    + congruence.
    + now destruct (Hstring s).
    + now destruct (Harray items).
Qed.

(** X8. A successful exchange whose first choice carries no message, no
    content or an empty content is not an error: the step's response is the
    empty text.  An exchange without any choice is an error. *)
Theorem chain_reply_without_content {host : Host} {W : Type}
    (complete : W -> list json -> W * Result CreateChatCompletionResponse)
    (prompt : string) (step : Step) (template : string) (messages : Messages)
    (history : list json) (w w' : W) (sent : Chain.Outbound)
    (completion : CreateChatCompletionResponse) :
  historyFor messages 0 [] = Return history ->
  complete w (history ++ [userMessage template prompt]) = (w', Return completion) ->
  (choices completion = [] ->
   getChainForPrompt prompt [(step, template)] messages complete (w, sent)
   = ((w', sent ++ [history ++ [userMessage template prompt]]),
      Throw (TypeError_message NoFirstChoice)))
  /\
  (forall choice others,
     choices completion = choice :: others ->
     message choice = None
     \/ (exists m, message choice = Some m
                   /\ (content m = None \/ content m = Some EmptyString)) ->
     getChainForPrompt prompt [(step, template)] messages complete (w, sent)
     = ((w', sent ++ [history ++ [userMessage template prompt]]),
        Return [(step, EmptyString)])).
Proof.
  intros Hh Hc. unfold getChainForPrompt. rewrite chainLoop_cons, Hh.
  cbv zeta. rewrite Hc. unfold firstChoiceContent. split.
  - intros Hnone. now rewrite Hnone.
  - intros choice others Hchoices Hempty. rewrite Hchoices.
    destruct Hempty as [Hm | [m [Hm [Hcontent | Hcontent]]]];
      rewrite Hm; try rewrite Hcontent; reflexivity.
Qed.

(** ** Extraction, further *)

(** X9. When the text does not parse directly and no block of the document
    is tagged [json], extraction is decided by the first block without a
    tag in document order; blocks in other languages are passed over. *)
Theorem extraction_first_untagged_block {host : Host}
    (text : string) (tree : mdast) (first : CodeNode) (others : list CodeNode) :
  isThrow (JSON_parse (trim text)) = true ->
  parseMarkdown text = Return tree ->
  filter isJsonBlock (codeNodes tree) = [] ->
  filter lang_absent (codeNodes tree) = first :: others ->
  getJSONCodeBlock text =
  match JSON_parse (trim (value first)) with
  | Return v => Return v
  | Throw _ =>
      Throw (join (LF +++ LF)
               (["Parsing failed"] ++ if production then [] else [text]))
  end.
Proof.
  intros Hdirect Htree Hjson Hplain.
  apply (getJSONCodeBlock_candidate text tree (trimmedValue first)
           (map trimmedValue others)); try assumption.
  now rewrite codeBlocks_spec, Hjson, Hplain.
Qed.

(** X10. Every failure of extraction carries one of two messages in
    production mode, [Parsing failed] with or without
    [No code blocks found], whatever the text was; outside production mode
    the same two messages are followed by the whole text. *)
Theorem extraction_failure_messages {host : Host} (text message : string) :
  getJSONCodeBlock text = Throw message ->
  (production = true ->
   message = "Parsing failed"
   \/ message = "Parsing failed" +++ LF +++ LF +++ "No code blocks found")
  /\
  (production = false ->
   message = "Parsing failed" +++ LF +++ LF +++ text
   \/ message = "Parsing failed" +++ LF +++ LF +++ "No code blocks found"
                +++ LF +++ LF +++ text).
Proof.
  unfold getJSONCodeBlock, scanCodeBlocks.
  destruct (JSON_parse (trim text)); [discriminate|].
  destruct (parseMarkdown text) as [tree|e].
  - destruct (visit tree collectCodeBlock []) as [|first others].
    + destruct production; intros [= <-]; split; intros; try discriminate; now right.
    + destruct (JSON_parse first); [discriminate|].
      destruct production; intros [= <-]; split; intros; try discriminate; now left.
  - destruct production; intros [= <-]; split; intros; try discriminate; now left.
Qed.

(** ** The orchestrator, further *)

Section GenerateOutcomeFacts.

Context {host : Host}.

Lemma shapeResponse_step (entry : Step * string) (shaped : Step * list json) :
  shapeResponse entry = Return shaped -> fst shaped = fst entry.
Proof.
  destruct entry as [step response]. unfold shapeResponse.
  destruct (getJSONCodeBlock response) as [value|e]; simpl; [|discriminate].
  destruct (validators step value); [|discriminate].
  now intros [= <-].
Qed.

Lemma mapResult_steps (responses : list (Step * string))
    (result : list (Step * list json)) :
  mapResult shapeResponse responses = Return result ->
  map fst result = map fst responses.
Proof.
  revert result; induction responses as [|entry responses IH]; intros result; simpl.
  - now intros [= <-].
  - destruct (shapeResponse entry) as [shaped|e] eqn:Hs; simpl; [|discriminate].
    destruct (mapResult shapeResponse responses) as [rest|e]; simpl; [|discriminate].
    intros [= <-]. simpl. now rewrite (shapeResponse_step _ _ Hs), (IH rest eq_refl).
Qed.

(** The first response that cannot be shaped decides the outcome. *)
Lemma mapResult_first_failure {A B : Type} (f : A -> Result B)
    (good later : list A) (x : A) (cause : string) :
  Forall (fun a => isThrow (f a) = false) good ->
  f x = Throw cause ->
  mapResult f (good ++ x :: later) = Throw cause.
Proof.
  intros Hgood Hx. induction Hgood as [|a good Ha _ IH]; simpl.
  - now rewrite Hx.
  - destruct (f a); [|discriminate]. simpl. now rewrite IH.
Qed.

(** What [generate] returns comes from a chain that has succeeded. *)
Lemma generate_success (userPrompt : string) (steps : Steps) (messages : Messages)
    (config : OpenAIConfig) (st st' : World * Chain.Outbound)
    (result : list (Step * list json)) :
  generate userPrompt steps messages config st = (st', Return result) ->
  exists responses,
    getChainForPrompt userPrompt steps messages (complete config) st
    = (st', Return responses)
    /\ mapResult shapeResponse responses = Return result.
Proof.
  unfold generate.
  destruct (String.length (trim (apiKey config)) =? 0)%nat; [discriminate|].
  destruct (negb (startsWith (organization config) "org-")); [discriminate|].
  unfold generateBody, Chain.bind, Chain.lift.
  destruct (getChainForPrompt userPrompt steps messages (complete config) st)
    as [st1 [responses|e]]; [|discriminate].
  destruct (mapResult shapeResponse responses) as [shaped|e] eqn:Hs; [|discriminate].
  intros [= <- <-]. now exists responses.
Qed.

Lemma generate_success_steps (userPrompt : string) (steps : Steps)
    (messages : Messages) (config : OpenAIConfig) (st st' : World * Chain.Outbound)
    (result : list (Step * list json)) :
  generate userPrompt steps messages config st = (st', Return result) ->
  map fst result = map fst steps.
Proof.
  intros Hg. destruct (generate_success _ _ _ _ _ _ _ Hg) as [responses [Hchain Hmap]].
  rewrite (mapResult_steps _ _ Hmap).
  destruct st as [w sent]. unfold getChainForPrompt in Hchain.
  destruct (chainLoop_run (complete config) userPrompt messages steps _ _ _ _ _ _ Hchain)
    as [requests [_ [_ [_ Hout]]]].
  destruct (Hout responses eq_refl) as [_ [new [Hnew Hsteps]]].
  simpl in Hnew. now subst new.
Qed.

End GenerateOutcomeFacts.

(** X11. What [generate] returns has one entry per step, in the order of
    the steps and under their identifiers: no step is dropped, repeated or
    moved. *)
Theorem generate_one_entry_per_step {host : Host}
    (userPrompt : string) (steps : Steps) (messages : Messages)
    (config : OpenAIConfig) (st st' : World * Chain.Outbound)
    (result : list (Step * list json)) :
  generate userPrompt steps messages config st = (st', Return result) ->
  map fst result = map fst steps /\ List.length result = List.length steps.
Proof.
  intros Hg. pose proof (generate_success_steps _ _ _ _ _ _ _ Hg) as Hsteps.
  split; [exact Hsteps|].
  now rewrite <- (length_map fst result), Hsteps, length_map.
Qed.

(** X12. In production mode [generate] can throw only three messages, all
    fixed: the two credentials messages and [Something went wrong. ].
    Nothing of the prompt, of the replies or of the cause is in them. *)
Theorem generate_production_errors {host : Host}
    (userPrompt : string) (steps : Steps) (messages : Messages)
    (config : OpenAIConfig) (st st' : World * Chain.Outbound) (message : string) :
  production = true ->
  generate userPrompt steps messages config st = (st', Throw message) ->
  message = "OpenAI API missing"
  \/ message = "OpenAI org missing or invalid"
  \/ message = "Something went wrong. ".
Proof.
  intros Hprod. unfold generate. rewrite Hprod.
  destruct (String.length (trim (apiKey config)) =? 0)%nat;
    [intros [= _ <-]; now left|].
  destruct (negb (startsWith (organization config) "org-"));
    [intros [= _ <-]; right; now left|].
  destruct (generateBody userPrompt steps messages config st) as [st1 [result|e]];
    [discriminate|].
  intros [= _ <-]. right. now right.
Qed.

(** X13. When the chain has succeeded and the value extracted from a
    response fails the validator of its step, the responses before it being
    in order, [generate] throws for that step, whatever comes after: outside
    production mode the message names the step and shows the value and the
    validator's reason; in production mode it is [Something went wrong. ]. *)
Theorem generate_validation_failure {host : Host}
    (userPrompt : string) (steps : Steps) (messages : Messages)
    (config : OpenAIConfig) (st st' : World * Chain.Outbound)
    (good later : list (Step * string)) (step : Step) (response : string)
    (value : json) (reason : string) :
  trim (apiKey config) <> EmptyString ->
  startsWith (organization config) "org-" = true ->
  getChainForPrompt userPrompt steps messages (complete config) st
  = (st', Return (good ++ (step, response) :: later)) ->
  Forall (fun entry => isThrow (shapeResponse entry) = false) good ->
  getJSONCodeBlock response = Return value ->
  validators step value = Throw reason ->
  generate userPrompt steps messages config st
  = (st', Throw (if production then "Something went wrong. "
                 else "Something went wrong. Invalid " +++ Step_toString step
                      +++ " generation. " +++ JSON_stringify value
                      +++ LF +++ LF +++ reason)).
Proof.
  intros Hkey Horg Hchain Hgood Hvalue Hreason.
  rewrite (generate_checked userPrompt steps messages config st Hkey Horg).
  unfold generateBody, Chain.bind, Chain.lift. rewrite Hchain.
  rewrite (mapResult_first_failure shapeResponse good later (step, response)
             ("Invalid " +++ Step_toString step +++ " generation. " +++
              (if production then EmptyString
               else JSON_stringify value +++ LF +++ LF +++ reason)) Hgood).
  - destruct production; reflexivity.
  - unfold shapeResponse. rewrite Hvalue. simpl. now rewrite Hreason.
Qed.

(** X14. When the service answers the first request with a status that is
    not a success, [generate] reads no body and starts no other step:
    it throws, outside production mode with the status code and the status
    text after [Something went wrong. ], and exactly one request has been
    sent. *)
Theorem generate_service_error {host : Host}
    (userPrompt : string) (step : Step) (template : string) (rest : Steps)
    (messages : Messages) (config : OpenAIConfig) (history : list json)
    (w w' : World) (sent : Chain.Outbound) (response : FetchResponse) :
  trim (apiKey config) <> EmptyString ->
  startsWith (organization config) "org-" = true ->
  historyFor messages 0 [] = Return history ->
  fetch w (completionRequest config (history ++ [userMessage template userPrompt]))
  = (w', Return response) ->
  ok response = false ->
  generate userPrompt ((step, template) :: rest) messages config (w, sent)
  = ((w', sent ++ [history ++ [userMessage template userPrompt]]),
     Throw (if production then "Something went wrong. "
            else "Something went wrong. " +++ ofNat (status response)
                 +++ ": " +++ statusText response)).
Proof.
  intros Hkey Horg Hh Hfetch Hok.
  rewrite (generate_checked userPrompt _ messages config _ Hkey Horg).
  unfold generateBody, Chain.bind, getChainForPrompt.
  rewrite chainLoop_cons, Hh. cbv zeta.
  unfold complete at 1. rewrite Hfetch. simpl. rewrite Hok.
  destruct production; reflexivity.
Qed.

(** ** The form schema and the entry point, further *)

Section SchemaFacts.

Context {host : Host}.

(** A repeated field is parsed entry by entry, however many entries the
    form holds. *)
Lemma repeatable_entries {A : Type} (schema : Zod.Schema A) (entries : list string) :
  Zod.repeatableOfType schema (Zod.fieldValue entries) = Zod.z_array schema entries.
Proof. destruct entries as [|e [|e' entries]]; reflexivity. Qed.

Lemma z_array_cons {A : Type} (schema : Zod.Schema A) (e : string)
    (entries : list string) :
  Zod.z_array schema (e :: entries)
  = match schema (Zod.FString e), Zod.z_array schema entries with
    | Some a, Some l => Some (a :: l)
    | _, _ => None
    end.
Proof. reflexivity. Qed.

Lemma z_array_length {A : Type} (schema : Zod.Schema A) (entries : list string)
    (parsed : list A) :
  Zod.z_array schema entries = Some parsed ->
  List.length parsed = List.length entries.
Proof.
  revert parsed; induction entries as [|e entries IH]; intros parsed; simpl.
  - now intros [= <-].
  - destruct (schema (Zod.FString e)); [|discriminate].
    destruct (Zod.z_array schema entries) as [l|]; [|discriminate].
    intros [= <-]. simpl. now rewrite (IH l eq_refl).
Qed.

Lemma step_entry_name (e : string) (step : Step) :
  Zod.text Zod.StepSchema (Zod.FString e) = Some step -> Step_toString step = e.
Proof.
  destruct e as [|c e]; [discriminate|].
  unfold Zod.text, Zod.StepSchema. cbv beta iota.
  destruct (String.eqb (String c e) "instances") eqn:Hi.
  - intros [= <-]. now apply String.eqb_eq in Hi.
  - destruct (String.eqb (String c e) "styles") eqn:Hs; [|discriminate].
    intros [= <-]. now apply String.eqb_eq in Hs.
Qed.

Lemma step_entries_names (entries : list string) (parsed : list Step) :
  Zod.z_array (Zod.text Zod.StepSchema) entries = Some parsed ->
  map Step_toString parsed = entries.
Proof.
  revert parsed; induction entries as [|e entries IH]; intros parsed.
  - now intros [= <-].
  - rewrite z_array_cons.
    destruct (Zod.text Zod.StepSchema (Zod.FString e)) as [step|] eqn:He; [|discriminate].
    destruct (Zod.z_array (Zod.text Zod.StepSchema) entries) as [l|]; [|discriminate].
    intros [= <-]. simpl. now rewrite (step_entry_name e step He), (IH l eq_refl).
Qed.

Lemma prompt_entry (entries : list string) (p : string) :
  Zod.text (Zod.z_string_max 280) (Zod.fieldValue entries) = Some p ->
  entries = [p] /\ p <> EmptyString /\ (String.length p <= 280)%nat.
Proof.
  destruct entries as [|e [|e' entries]]; try discriminate.
  destruct e as [|c e]; [discriminate|].
  unfold Zod.fieldValue, Zod.text, Zod.z_string_max. cbv beta iota.
  destruct (String.length (String c e) <=? 280)%nat eqn:Hlen; [|discriminate].
  intros [= <-]. split; [reflexivity|]. split; [discriminate|].
  now apply Nat.leb_le.
Qed.

(** What the schema has checked when it accepts a form. *)
Lemma schema_parse_accepted (form : FormEntries) (formData : FormData) :
  schema_parse form = Return formData ->
  prompt_entries form = [prompt formData]
  /\ prompt formData <> EmptyString
  /\ (String.length (prompt formData) <= 280)%nat
  /\ map Step_toString (steps formData) = steps_entries form
  /\ List.length (messages formData) = List.length (messages_entries form).
Proof.
  unfold schema_parse. rewrite !repeatable_entries.
  destruct (Zod.text (Zod.z_string_max 280) (Zod.fieldValue (prompt_entries form)))
    as [p|] eqn:Hp; [|discriminate].
  destruct (Zod.z_array (Zod.text Zod.StepSchema) (steps_entries form))
    as [s|] eqn:Hs; [|discriminate].
  destruct (Zod.z_array (Zod.optional (Zod.text Zod.z_string)) (messages_entries form))
    as [m|] eqn:Hm; [|discriminate].
  intros [= <-]. simpl.
  destruct (prompt_entry _ _ Hp) as [H1 [H2 H3]].
  repeat (split; [assumption|]).
  split; [now apply step_entries_names | now apply (z_array_length _ _ _ Hm)].
Qed.

End SchemaFacts.

(** X15. A form that the schema accepts has exactly one [prompt] entry,
    which is not empty and has at most 280 characters and is handed on
    unchanged; its [steps] entries are the names of the parsed steps, in
    order; and [messages] keeps its number of entries. *)
Theorem schema_accepted_form {host : Host} (form : FormEntries) (formData : FormData) :
  schema_parse form = Return formData ->
  prompt_entries form = [prompt formData]
  /\ prompt formData <> EmptyString
  /\ (String.length (prompt formData) <= 280)%nat
  /\ map Step_toString (steps formData) = steps_entries form
  /\ List.length (messages formData) = List.length (messages_entries form).
Proof. apply schema_parse_accepted. Qed.

(** X16. With the feature enabled, a form without a [prompt] entry, with an
    empty one, with more than one, with one of more than 280 characters, or
    with a step that is neither [instances] nor [styles], is answered with
    the schema's error as a string; nothing is sent to the service and the
    credentials are not looked at. *)
Theorem action_rejects_bad_form {host : Host}
    (request : FormEntries) (st : World * Chain.Outbound) :
  isFeatureEnabled_ai = true ->
  prompt_entries request = []
  \/ prompt_entries request = [EmptyString]
  \/ (2 <= List.length (prompt_entries request))%nat
  \/ (exists p, prompt_entries request = [p] /\ (280 < String.length p)%nat)
  \/ (exists s, In s (steps_entries request) /\ s <> "instances" /\ s <> "styles") ->
  action request st = (st, ErrorsString (ZodError_message request)).
Proof.
  intros Hon Hbad. unfold action. rewrite Hon. simpl.
  destruct (schema_parse request) as [formData|e] eqn:Hparse.
  - exfalso.
    destruct (schema_parse_accepted request formData Hparse)
      as [Hp [Hne [Hlen [Hsteps _]]]].
    destruct Hbad as [H | [H | [H | [[p [H Hlong]] | [s [Hin [Hi Hs]]]]]]].
    + congruence.
    + rewrite Hp in H. injection H as H. contradiction.
    + rewrite Hp in H. simpl in H. lia.
    + rewrite Hp in H. injection H as <-. lia.
    + rewrite <- Hsteps in Hin. apply in_map_iff in Hin as [step [Hname _]].
      destruct step; simpl in Hname; congruence.
  - unfold schema_parse in Hparse.
    destruct (Zod.text _ _); [|now injection Hparse as <-].
    destruct (Zod.repeatableOfType (Zod.text Zod.StepSchema) _);
      [|now injection Hparse as <-].
    destruct (Zod.repeatableOfType (Zod.optional (Zod.text Zod.z_string)) _);
      [discriminate | now injection Hparse as <-].
Qed.

(** X18. When the route returns a generated result, the result has one
    entry for each [steps] entry of the form, in the same order and under
    the same name. *)
Theorem action_one_entry_per_step {host : Host}
    (request : FormEntries) (st : World * Chain.Outbound)
    (result : list (Step * list json)) :
  snd (action request st) = Generated result ->
  map (fun entry => Step_toString (fst entry)) result = steps_entries request.
Proof.
  unfold action. destruct (negb isFeatureEnabled_ai); [discriminate|].
  destruct (schema_parse request) as [formData|e] eqn:Hparse; [|discriminate].
  destruct (stepMessages formData _) as [histories|e]; [|discriminate].
  destruct (generate _ _ _ _ st) as [st' [generated|e]] eqn:Hg; [|discriminate].
  intros [= <-].
  pose proof (generate_success_steps _ _ _ _ _ _ _ Hg) as Hsteps.
  rewrite map_map in Hsteps. simpl in Hsteps. rewrite map_id in Hsteps.
  destruct (schema_parse_accepted request formData Hparse) as [_ [_ [_ [Hnames _]]]].
  now rewrite <- Hnames, <- Hsteps, map_map.
Qed.

(** X19. A form that the schema accepts and that names no step is answered
    with an empty result, provided the credentials pass their checks; no
    request is sent. *)
Theorem action_no_steps {host : Host}
    (request : FormEntries) (formData : FormData) (st : World * Chain.Outbound) :
  isFeatureEnabled_ai = true ->
  schema_parse request = Return formData ->
  steps formData = [] ->
  trim (orEmpty env_OPENAI_KEY) <> EmptyString ->
  startsWith (orEmpty env_OPENAI_ORG) "org-" = true ->
  action request st = (st, Generated []).
Proof.
  intros Hon Hparse Hnone Hkey Horg.
  unfold action. rewrite Hon. simpl. rewrite Hparse, Hnone. simpl.
  unfold stepMessages. simpl.
  rewrite generate_checked by assumption.
  reflexivity.
Qed.

(** X20. When the form is accepted and its histories decode but the API key
    of the environment is missing or blank, or the organization is missing
    or does not start with [org-], the route answers with the credentials
    message itself, in production mode too, and sends nothing. *)
Theorem action_config_error {host : Host}
    (request : FormEntries) (formData : FormData) (histories : Messages)
    (st : World * Chain.Outbound) :
  isFeatureEnabled_ai = true ->
  schema_parse request = Return formData ->
  stepMessages formData (map (fun step => (step, templates step)) (steps formData))
  = Return histories ->
  trim (orEmpty env_OPENAI_KEY) = EmptyString
  \/ startsWith (orEmpty env_OPENAI_ORG) "org-" = false ->
  action request st
  = (st, ErrorsString (if String.eqb (trim (orEmpty env_OPENAI_KEY)) EmptyString
                       then "OpenAI API missing"
                       else "OpenAI org missing or invalid")).
Proof.
  intros Hon Hparse Hdecode Hbad.
  unfold action. rewrite Hon. simpl. rewrite Hparse, Hdecode.
  unfold generate. simpl apiKey. simpl organization. rewrite length_zero_empty.
  destruct (String.eqb (trim (orEmpty env_OPENAI_KEY)) EmptyString) eqn:Hkey;
    [reflexivity|].
  destruct Hbad as [Hempty|Horg].
  - rewrite Hempty in Hkey. discriminate.
  - now rewrite Horg.
Qed.

(** X17. With the feature enabled the route has two kinds of answer only:
    a generated result, or an error whose [errors] field is one string. *)
Theorem action_enabled_outcomes {host : Host}
    (request : FormEntries) (st : World * Chain.Outbound) :
  isFeatureEnabled_ai = true ->
  (exists result, snd (action request st) = Generated result)
  \/ (exists message, snd (action request st) = ErrorsString message).
Proof.
  intros Hon. unfold action. rewrite Hon. simpl.
  destruct (schema_parse request) as [formData|e]; [|right; now exists e].
  destruct (stepMessages formData _) as [histories|e]; [|right; now exists e].
  destruct (generate _ _ _ _ st) as [st' [result|e]].
  - left. now exists result.
  - right. now exists e.
Qed.

(** X21. Each of the two templates holds the marker exactly once, so for a
    prompt without a dollar sign the user message of a step is the text of
    its template before the marker, the prompt, and the text after the
    marker, trimmed. *)
Theorem templates_single_marker (step : Step) (prompt : string) :
  includes prompt "$" = false ->
  exists before after,
    templates step = before +++ promptMarker +++ after
    /\ includes before promptMarker = false
    /\ includes after promptMarker = false
    /\ userMessage (templates step) prompt
       = requestMessage "user" (trim (before +++ prompt +++ after)).
Proof.
  intros Hprompt.
  assert (Hparts : exists before after,
             search promptMarker (templates step) = Some (before, after)
             /\ includes before promptMarker = false
             /\ includes after promptMarker = false).
  { destruct step.
    - destruct (search promptMarker (templates instances)) as [[before after]|] eqn:Hs;
        [|vm_compute in Hs; discriminate].
      exists before, after. split; [reflexivity|].
      vm_compute in Hs. injection Hs as <- <-. split; vm_compute; reflexivity.
    - destruct (search promptMarker (templates styles)) as [[before after]|] eqn:Hs;
        [|vm_compute in Hs; discriminate].
      exists before, after. split; [reflexivity|].
      vm_compute in Hs. injection Hs as <- <-. split; vm_compute; reflexivity. }
  destruct Hparts as [before [after [Hs [Hb Ha]]]].
  exists before, after.
  pose proof (search_sound _ _ _ _ Hs) as Hsplit.
  split; [exact Hsplit|]. split; [exact Hb|]. split; [exact Ha|].
  unfold userMessage, replace. rewrite Hs.
  now rewrite getSubstitution_literal.
Qed.

(** ** The further properties on concrete runs *)

Lemma chain_one_response_per_step_witness :
  let host := Stub.host true false in
  map fst [(instances, "[]"); (styles, "{}")] = map fst Stub.shortSteps
  /\ List.length [(instances, "[]"); (styles, "{}")] = List.length Stub.shortSteps.
Proof.
  intros host.
  exact (chain_one_response_per_step (host := host) (complete Stub.config)
           "make a button" Stub.shortSteps [JNull; JNull] (["[]"; "{}"], [])
           ([], [[userMessage Stub.buildTemplate "make a button"];
                 [requestMessage "assistant" "[]";
                  userMessage Stub.styleTemplate "make a button"]])
           [(instances, "[]"); (styles, "{}")] eq_refl).
Defined.

Lemma chain_one_request_per_step_witness :
  let host := Stub.host true false in
  exists requests,
    [[userMessage Stub.buildTemplate "make a button"];
     [requestMessage "assistant" "[]"; userMessage Stub.styleTemplate "make a button"]]
    = [] ++ requests
    /\ (List.length requests <= 2)%nat
    /\ (false = false -> List.length requests = 2%nat).
Proof.
  intros host.
  exact (chain_one_request_per_step (host := host) (complete Stub.config)
           "make a button" Stub.shortSteps [JNull; JNull] ["[]"; "{}"] []
           ([], [[userMessage Stub.buildTemplate "make a button"];
                 [requestMessage "assistant" "[]";
                  userMessage Stub.styleTemplate "make a button"]])
           (Return [(instances, "[]"); (styles, "{}")]) eq_refl).
Defined.

Lemma chain_user_message_last_witness :
  let host := Stub.host true false in
  exists step template history,
    nth_error Stub.shortSteps 1 = Some (step, template)
    /\ [requestMessage "assistant" "[]"; userMessage Stub.styleTemplate "make a button"]
       = history ++ [userMessage template "make a button"].
Proof.
  intros host.
  exact (chain_user_message_last (host := host) (complete Stub.config)
           "make a button" Stub.shortSteps [JNull; JNull] ["[]"] []
           ([], [[userMessage Stub.buildTemplate "make a button"];
                 [requestMessage "assistant" "[]";
                  userMessage Stub.styleTemplate "make a button"]])
           (Throw "503: Service Unavailable") 1
           [requestMessage "assistant" "[]";
            userMessage Stub.styleTemplate "make a button"]
           eq_refl eq_refl).
Defined.

Lemma chain_later_request_witness :
  let host := Stub.host true false in
  let x := requestMessage "user" "x" in
  let sent :=
    [[userMessage Stub.buildTemplate "make a button"];
     [requestMessage "assistant" "[]"; userMessage Stub.styleTemplate "make a button"];
     [x; userMessage Stub.styleTemplate "make a button"]] in
  (exists previous,
     nth_error [(instances, "[]"); (styles, "{}"); (styles, "[{}]")] 0 = Some previous
     /\ nth_error sent (0 + 1)
        = Some [requestMessage "assistant" (snd previous);
                userMessage Stub.styleTemplate "make a button"])
  /\ nth_error sent (0 + 2) = Some ([x] ++ [userMessage Stub.styleTemplate "make a button"]).
Proof.
  intros host x sent. split.
  - exact (proj1 (chain_later_request (host := host) (complete Stub.config)
                    "make a button" Stub.threeSteps [JNull; JNull; JArray [x]]
                    ["[]"; "{}"; "[{}]"] [] ([], sent)
                    [(instances, "[]"); (styles, "{}"); (styles, "[{}]")]
                    0 styles Stub.styleTemplate eq_refl eq_refl) eq_refl).
  - exact (proj2 (chain_later_request (host := host) (complete Stub.config)
                    "make a button" Stub.threeSteps [JNull; JNull; JArray [x]]
                    ["[]"; "{}"; "[{}]"] [] ([], sent)
                    [(instances, "[]"); (styles, "{}"); (styles, "[{}]")]
                    1 styles Stub.styleTemplate eq_refl eq_refl) [x] eq_refl).
Defined.

Lemma chain_first_request_witness :
  let host := Stub.host true false in
  nth_error [[userMessage Stub.buildTemplate "make a button"]] 0
  = Some [userMessage Stub.buildTemplate "make a button"].
Proof.
  intros host.
  exact (chain_first_request (host := host) (complete Stub.config)
           "make a button" instances Stub.buildTemplate [(styles, Stub.styleTemplate)]
           [JNull; JNull] [] []
           ([], [[userMessage Stub.buildTemplate "make a button"]])
           (Throw "503: Service Unavailable") eq_refl eq_refl).
Defined.

Lemma chain_failure_aborts_witness :
  let host := Stub.host true false in
  getChainForPrompt "make a button" ([(instances, Stub.buildTemplate)] ++ Stub.shortSteps)
    [JNull; JNull; JNull] (complete Stub.config) ([], [])
  = (([], [[userMessage Stub.buildTemplate "make a button"]]),
     Throw "503: Service Unavailable").
Proof.
  intros host.
  exact (chain_failure_aborts (host := host) (complete Stub.config)
           "make a button" [(instances, Stub.buildTemplate)] Stub.shortSteps
           [JNull; JNull; JNull] ([], [])
           ([], [[userMessage Stub.buildTemplate "make a button"]])
           "503: Service Unavailable" eq_refl).
Defined.

Lemma chain_bad_history_sends_nothing_witness :
  let host := Stub.host true false in
  (* an object as the history of the first step *)
  getChainForPrompt "make a button" ([] ++ Stub.shortSteps) [JObject []; JNull]
    (complete Stub.config) (["[]"; "{}"], [])
  = ((["[]"; "{}"], []), Throw "messagesForStep is not iterable")
  /\
  (* no entry for the second step *)
  getChainForPrompt "make a button"
    ([(instances, Stub.buildTemplate)] ++ [(styles, Stub.styleTemplate)]) [JNull]
    (complete Stub.config) (["[]"; "{}"], [])
  = ((["{}"], [[userMessage Stub.buildTemplate "make a button"]]),
     Throw "messagesForStep is not iterable").
Proof.
  intros host. split.
  - refine (chain_bad_history_sends_nothing (host := host) (complete Stub.config)
              "make a button" [] [(styles, Stub.styleTemplate)] instances
              Stub.buildTemplate [JObject []; JNull] (["[]"; "{}"], [])
              (["[]"; "{}"], []) [] eq_refl _).
    right. exists (JObject []). repeat split; intros; discriminate.
  - refine (chain_bad_history_sends_nothing (host := host) (complete Stub.config)
              "make a button" [(instances, Stub.buildTemplate)] [] styles
              Stub.styleTemplate [JNull] (["[]"; "{}"], [])
              (["{}"], [[userMessage Stub.buildTemplate "make a button"]])
              [(instances, "[]")] eq_refl _).
    now left.
Defined.

Lemma chain_reply_without_content_witness :
  let host := Stub.host true false in
  getChainForPrompt "make a button" [(instances, Stub.buildTemplate)] [JNull]
    Stub.silent (tt, [])
  = ((tt, [] ++ [[] ++ [userMessage Stub.buildTemplate "make a button"]]),
     Return [(instances, EmptyString)]).
Proof.
  intros host.
  refine (proj2 (chain_reply_without_content (host := host) Stub.silent
                   "make a button" instances Stub.buildTemplate [JNull] [] tt tt []
                   {| choices := [ {| message := None |} ] |} eq_refl eq_refl)
            {| message := None |} [] eq_refl _).
  now left.
Defined.

Lemma extraction_first_untagged_block_witness :
  let host := Stub.host true false in
  let other := {| lang := Some "typescript"; value := "type A = 1" |} in
  let plain := {| lang := None; value := "[{}]" |} in
  parseMarkdown Stub.otherThenPlain = Return (Parent [Code other; Code plain])
  /\ getJSONCodeBlock Stub.otherThenPlain = Return (JArray [JObject []]).
Proof.
  intros host other plain. split; [reflexivity|].
  exact (extraction_first_untagged_block (host := host) Stub.otherThenPlain
           (Parent [Code other; Code plain]) plain [] eq_refl eq_refl eq_refl eq_refl).
Defined.

Lemma extraction_failure_messages_witness :
  let prod := Stub.host true true in
  let dev := Stub.host true false in
  ("Parsing failed" = "Parsing failed"
   \/ "Parsing failed" = "Parsing failed" +++ LF +++ LF +++ "No code blocks found")
  /\
  ("Parsing failed" +++ LF +++ LF +++ "No code blocks found" +++ LF +++ LF +++ "hello"
   = "Parsing failed" +++ LF +++ LF +++ "hello"
   \/ "Parsing failed" +++ LF +++ LF +++ "No code blocks found" +++ LF +++ LF +++ "hello"
      = "Parsing failed" +++ LF +++ LF +++ "No code blocks found"
        +++ LF +++ LF +++ "hello").
Proof.
  intros prod dev. split.
  - exact (proj1 (extraction_failure_messages (host := prod) Stub.brokenBlock
                    "Parsing failed" eq_refl) eq_refl).
  - exact (proj2 (extraction_failure_messages (host := dev) "hello"
                    ("Parsing failed" +++ LF +++ LF +++ "No code blocks found"
                     +++ LF +++ LF +++ "hello") eq_refl) eq_refl).
Defined.

Lemma generate_one_entry_per_step_witness :
  map fst [(instances, @nil json); (styles, [JObject []])] = map fst Stub.shortSteps
  /\ List.length [(instances, @nil json); (styles, [JObject []])]
     = List.length Stub.shortSteps.
Proof.
  exact (generate_one_entry_per_step (host := Stub.lenient) "make a button"
           Stub.shortSteps [JNull; JNull] Stub.config (["[]"; "{}"], [])
           ([], [[userMessage Stub.buildTemplate "make a button"];
                 [requestMessage "assistant" "[]";
                  userMessage Stub.styleTemplate "make a button"]])
           [(instances, []); (styles, [JObject []])] eq_refl).
Defined.

Lemma generate_production_errors_witness :
  "Something went wrong. " = "OpenAI API missing"
  \/ "Something went wrong. " = "OpenAI org missing or invalid"
  \/ "Something went wrong. " = "Something went wrong. ".
Proof.
  exact (generate_production_errors (host := Stub.host true true) "make a button"
           Stub.shortSteps [JNull; JNull] Stub.config (["hello"], [])
           ([], [[userMessage Stub.buildTemplate "make a button"];
                 [requestMessage "assistant" "hello";
                  userMessage Stub.styleTemplate "make a button"]])
           "Something went wrong. " eq_refl eq_refl).
Defined.

Lemma generate_validation_failure_witness :
  let host := Stub.host true false in
  generate "make a button" Stub.shortSteps [JNull; JNull] Stub.config (["[]"; "{}"], [])
  = (([], [[userMessage Stub.buildTemplate "make a button"];
           [requestMessage "assistant" "[]";
            userMessage Stub.styleTemplate "make a button"]]),
     Throw ("Something went wrong. Invalid styles generation. {}"
            +++ LF +++ LF +++ "Expected array")).
Proof.
  intros host.
  refine (generate_validation_failure (host := host) "make a button"
            Stub.shortSteps [JNull; JNull] Stub.config (["[]"; "{}"], [])
            ([], [[userMessage Stub.buildTemplate "make a button"];
                  [requestMessage "assistant" "[]";
                   userMessage Stub.styleTemplate "make a button"]])
            [(instances, "[]")] [] styles "{}" (JObject []) "Expected array"
            _ eq_refl eq_refl _ eq_refl eq_refl).
  - discriminate.
  - constructor; [reflexivity | constructor].
Defined.

Lemma generate_service_error_witness :
  let host := Stub.host true false in
  generate "make a button" Stub.shortSteps [JNull; JNull] Stub.config ([], [])
  = (([], [] ++ [[] ++ [userMessage Stub.buildTemplate "make a button"]]),
     Throw "Something went wrong. 503: Service Unavailable").
Proof.
  intros host.
  refine (generate_service_error (host := host) "make a button" instances
            Stub.buildTemplate [(styles, Stub.styleTemplate)] [JNull; JNull]
            Stub.config [] [] [] [] Stub.unavailable _ eq_refl eq_refl eq_refl eq_refl).
  discriminate.
Defined.

Lemma schema_accepted_form_witness :
  let host := Stub.host true false in
  let formData := {| prompt := "make a button"; steps := [instances];
                     messages := [Some "[]"; Some "junk"] |} in
  prompt_entries (Stub.form ["[]"; "junk"]) = [prompt formData]
  /\ prompt formData <> EmptyString
  /\ (String.length (prompt formData) <= 280)%nat
  /\ map Step_toString (steps formData) = steps_entries (Stub.form ["[]"; "junk"])
  /\ List.length (messages formData)
     = List.length (messages_entries (Stub.form ["[]"; "junk"])).
Proof.
  intros host formData.
  exact (schema_accepted_form (host := host) (Stub.form ["[]"; "junk"]) formData eq_refl).
Defined.

Lemma action_rejects_bad_form_witness :
  let host := Stub.host true true in
  let unknownStep := {| prompt_entries := ["make a button"];
                        steps_entries := ["instances"; "props"];
                        messages_entries := [] |} in
  let noPrompt := {| prompt_entries := [];
                     steps_entries := ["instances"];
                     messages_entries := [] |} in
  action unknownStep (["[]"], []) = ((["[]"], []), ErrorsString "Invalid form data")
  /\ action noPrompt (["[]"], []) = ((["[]"], []), ErrorsString "Invalid form data").
Proof.
  intros host unknownStep noPrompt. split.
  - refine (action_rejects_bad_form (host := host) unknownStep (["[]"], []) eq_refl _).
    do 4 right. exists "props". split; [right; now left|]. split; discriminate.
  - refine (action_rejects_bad_form (host := host) noPrompt (["[]"], []) eq_refl _).
    now left.
Defined.

Lemma action_enabled_outcomes_witness :
  let host := Stub.host true true in
  (exists result, snd (action (Stub.form []) ([], [])) = Generated result)
  \/ (exists message, snd (action (Stub.form []) ([], [])) = ErrorsString message).
Proof.
  intros host.
  exact (action_enabled_outcomes (host := host) (Stub.form []) ([], []) eq_refl).
Defined.

Lemma action_one_entry_per_step_witness :
  let host := Stub.host true false in
  map (fun entry : Step * list json => Step_toString (fst entry)) [(instances, [])]
  = steps_entries (Stub.form []).
Proof.
  intros host.
  refine (action_one_entry_per_step (host := host) (Stub.form []) (["[]"], [])
            [(instances, [])] _).
  vm_compute. reflexivity.
Defined.

Lemma action_no_steps_witness :
  let host := Stub.host true false in
  action Stub.noSteps (["[]"], []) = ((["[]"], []), Generated []).
Proof.
  intros host.
  refine (action_no_steps (host := host) Stub.noSteps
            {| prompt := "make a button"; steps := []; messages := [] |}
            (["[]"], []) eq_refl eq_refl eq_refl _ eq_refl).
  discriminate.
Defined.

Lemma action_config_error_witness :
  action (host := Stub.keyless) (Stub.form []) (["[]"], [])
  = ((["[]"], []), ErrorsString "OpenAI API missing").
Proof.
  refine (action_config_error (host := Stub.keyless) (Stub.form [])
            {| prompt := "make a button"; steps := [instances]; messages := [] |}
            [JNull] (["[]"], []) eq_refl eq_refl eq_refl _).
  now left.
Defined.

Lemma templates_single_marker_witness :
  exists before after,
    templates styles = before +++ promptMarker +++ after
    /\ includes before promptMarker = false
    /\ includes after promptMarker = false
    /\ userMessage (templates styles) "make a button"
       = requestMessage "user" (trim (before +++ "make a button" +++ after)).
Proof.
  exact (templates_single_marker styles "make a button" eq_refl).
Defined.
